(** * travily_server.py: the Tavily search relay

    A shallow embedding of [tavily_server.py]: the tool registry [tools],
    the client [_tavily_base_search], the four public tool functions and the
    dispatch endpoint [handle_tool_call], followed by the properties of the
    relay that the specification states about them.

    Python values are the values [request.get_json()] can produce; a [dict]
    is an insertion-ordered association list; exceptions are explicit
    results; the environment, the remote API and the limits of the
    interpreter are a [world] the code reads; the calls of [requests.post]
    are recorded in a trace of events. *)

From Stdlib Require Import String ZArith List Bool Lia DecimalString.
From ExtLib Require Import Structures.Monad Structures.MonadExc.
Import ListNotations MonadNotation.
Open Scope string_scope.
Open Scope Z_scope.
Open Scope monad_scope.

(** ** Python dictionaries with string keys *)

Module PyDict.
Section Dict.
Context {V : Type}.

Definition t : Type := list (string * V).

(** [d.get(k)] *)
Fixpoint get (k : string) (d : t) : option V :=
  match d with
  | [] => None
  | (k', v) :: d' => if String.eqb k k' then Some v else get k d'
  end.

(** [d.get(k, default)] *)
Definition get_default (k : string) (default : V) (d : t) : V :=
  match get k d with Some v => v | None => default end.

(** [k in d] *)
Definition mem (k : string) (d : t) : bool :=
  match get k d with Some _ => true | None => false end.

(** [d[k] = v]: an existing key keeps its position, a new one goes last. *)
Fixpoint set (k : string) (v : V) (d : t) : t :=
  match d with
  | [] => [(k, v)]
  | (k', v') :: d' =>
      if String.eqb k k' then (k, v) :: d' else (k', v') :: set k v d'
  end.

Definition keys (d : t) : list string := map fst d.

End Dict.
Arguments t : clear implicits.
End PyDict.

(** ** Values

    What [request.get_json()] and [response.json()] produce.  A float is
    carried as its [repr]; the relay never computes with one. *)

#[warnings="-register-all"]
Inductive value : Type :=
| VNone
| VBool (b : bool)
| VInt (n : Z)
| VFloat (repr : string)
| VStr (s : string)
| VList (l : list value)
| VDict (d : list (string * value)).

Definition pydict : Type := PyDict.t value.

(** [type(v).__name__] *)
Definition type_name (v : value) : string :=
  match v with
  | VNone => "NoneType"
  | VBool _ => "bool"
  | VInt _ => "int"
  | VFloat _ => "float"
  | VStr _ => "str"
  | VList _ => "list"
  | VDict _ => "dict"
  end.

Definition str_of_Z (n : Z) : string := NilZero.string_of_int (Z.to_int n).

(** Lists and dicts define no [__hash__]. *)
Definition hashable (v : value) : bool :=
  match v with
  | VList _ | VDict _ => false
  | _ => true
  end.

(** [str(v)], as an f-string formats [{v}].  The endpoint formats tool names
    only, after the membership test: a list or a dict never gets here, the
    test raises on it first. *)
Definition py_str (v : value) : string :=
  match v with
  | VNone => "None"
  | VBool true => "True"
  | VBool false => "False"
  | VInt n => str_of_Z n
  | VFloat r => r
  | VStr s => s
  | VList _ => "[...]"
  | VDict _ => "{...}"
  end.

(** ** Exceptions, results and responses *)

(** The classes the code names, and [OtherError] for any other subclass of
    [Exception] by its class name: the [RecursionError] of a JSON encoder or
    decoder on a deeply nested value, the [HTTPException] of a body that
    [request.get_json()] refuses. *)
Inductive exn : Type :=
| TypeError (msg : string)
| AttributeError (msg : string)
| RequestException (msg : string)
| OtherError (cls : string) (msg : string).

Inductive result (A : Type) : Type :=
| Ok (a : A)
| Raise (e : exn).
Arguments Ok {A} a.
Arguments Raise {A} e.

(** What a view function returns: a JSON body and an HTTP status. *)
Record response : Type := Response { body : value; status : Z }.

(** [(r, code)], as in [return jsonify(...), 404]. *)
Definition with_status (r : response) (code : Z) : response :=
  Response (body r) code.

(** How deep the containers of a value nest: 0 for a scalar, 1 for a list or
    a dict of scalars. *)
Fixpoint nesting (v : value) : nat :=
  match v with
  | VList l => S (fold_right (fun x acc => Nat.max (nesting x) acc) 0%nat l)
  | VDict d =>
      S (fold_right (fun kv acc => let '(_, x) := kv in Nat.max (nesting x) acc)
                    0%nat d)
  | _ => 0%nat
  end.

(** ** The world outside the process *)

(** What [response.json()] does with the body of a response: it decodes it,
    or rejects it as not JSON ([requests.exceptions.JSONDecodeError], a
    [RequestException]), or fails in the decoder with an exception that
    [requests] does not convert (a [RecursionError] on deep nesting). *)
Inductive content : Type :=
| Json (v : value)
| NotJson (detail : string)
| Json_raises (cls : string) (detail : string).

(** How one call [requests.post(url, json=payload)] ends.  [requests] raises
    a [RequestException] for a failure of transport, lets through an
    exception of another class, neither a [RequestException] nor a
    [TypeError] (the [RecursionError] of encoding a deeply nested payload,
    before anything is sent), or returns a response.  It
    follows a 301, 302, 303, 307 or 308 that has a [Location] header by
    itself: the response returned is then the one of the last exchange, and
    the exchanges on the way are inside the call, not events of the relay. *)
Inductive post_outcome : Type :=
| Transport_failure (detail : string)
| Post_raises (cls : string) (detail : string)
| Responded (status_code : Z) (reason : string) (text : content).

Record world : Type := World {
  (** [os.environ] *)
  environ : PyDict.t string;
  (** how [requests.post(url, json=payload)] ends *)
  remote : string -> pydict -> post_outcome;
  (** [__name__] of the module: [__main__] when run as a script *)
  module_name : string;
  (** the levels of nesting [jsonify] can encode beyond the two that the
      documents built by the server itself need: what the recursion limit
      of the interpreter leaves *)
  encoder_headroom : nat
}.

(** [EvCall f]: the body of the function [f] of the module is entered.
    [EvPost url payload]: the call [requests.post(url, json=payload)]. *)
Inductive event : Type :=
| EvCall (fn : string)
| EvPost (url : string) (payload : pydict).

Definition trace : Type := list event.

(** The calls of [requests.post] in a trace, in order. *)
Fixpoint posts (t : trace) : list (string * pydict) :=
  match t with
  | [] => []
  | EvPost u p :: t' => (u, p) :: posts t'
  | EvCall _ :: t' => posts t'
  end.

(** ** The execution monad: read the world, log events, return or raise *)

Definition exec (A : Type) : Type := world -> result A * trace.

Definition exec_ret {A} (a : A) : exec A := fun _ => (Ok a, []).

Definition exec_bind {A B} (m : exec A) (f : A -> exec B) : exec B :=
  fun w =>
    match m w with
    | (Ok a, t) => let (r, t') := f a w in (r, (t ++ t')%list)
    | (Raise e, t) => (Raise e, t)
    end.

Definition exec_raise {A} (e : exn) : exec A := fun _ => (Raise e, []).

Definition exec_catch {A} (m : exec A) (h : exn -> exec A) : exec A :=
  fun w =>
    match m w with
    | (Ok a, t) => (Ok a, t)
    | (Raise e, t) => let (r, t') := h e w in (r, (t ++ t')%list)
    end.

#[global] Instance Monad_exec : Monad exec :=
  {| ret := @exec_ret; bind := @exec_bind |}.

#[global] Instance MonadExc_exec : MonadExc exn exec :=
  {| raise := @exec_raise; catch := @exec_catch |}.

Definition emit (e : event) : exec unit := fun _ => (Ok tt, [e]).

Definition ask : exec world := fun w => (Ok w, []).

(** [os.environ.get(name)] *)
Definition os_environ_get (name : string) : exec (option string) :=
  w <- ask ;; ret (PyDict.get name (environ w)).

Definition encoder_limit (w : world) : nat := 2 + encoder_headroom w.

(** [jsonify(v)]: a 200 response with the value as its body; the encoder
    raises a [RecursionError] on a value nested deeper than it can follow. *)
Definition jsonify (v : value) : exec response :=
  w <- ask ;;
  if (nesting v <=? encoder_limit w)%nat then ret (Response v 200)
  else raise (OtherError "RecursionError"
                "maximum recursion depth exceeded while encoding a JSON object").

(** ** The [requests] calls the client makes *)

Record http_response : Type := HttpResponse {
  status_code : Z;
  reason : string;
  url_of : string;
  text : content
}.

(** [requests.post(url, json=payload)] *)
Definition requests_post (url : string) (payload : pydict) : exec http_response :=
  emit (EvPost url payload) ;;
  w <- ask ;;
  match remote w url payload with
  | Transport_failure d => raise (RequestException d)
  | Post_raises cls d => raise (OtherError cls d)
  | Responded c r b => ret (HttpResponse c r url b)
  end.

(** [response.raise_for_status()]: an [HTTPError] for a 4xx or a 5xx status,
    nothing otherwise. *)
Definition raise_for_status (r : http_response) : exec unit :=
  let c := status_code r in
  if (400 <=? c) && (c <? 500) then
    raise (RequestException
             (str_of_Z c ++ " Client Error: " ++ reason r ++ " for url: " ++ url_of r))
  else if (500 <=? c) && (c <? 600) then
    raise (RequestException
             (str_of_Z c ++ " Server Error: " ++ reason r ++ " for url: " ++ url_of r))
  else ret tt.

(** [response.json()] *)
Definition response_json (r : http_response) : exec value :=
  match text r with
  | Json v => ret v
  | NotJson d => raise (RequestException d)
  | Json_raises cls d => raise (OtherError cls d)
  end.

(** [try: body except requests.exceptions.RequestException as e: handler] *)
Definition except_RequestException {A} (m : exec A) (h : string -> exec A) : exec A :=
  catch m (fun e => match e with RequestException msg => h msg | _ => raise e end).

(** [try: body except TypeError as e: handler] *)
Definition except_TypeError {A} (m : exec A) (h : string -> exec A) : exec A :=
  catch m (fun e => match e with TypeError msg => h msg | _ => raise e end).

(** ** Tool definition *)

Record tool_entry : Type := ToolEntry { description : string; function : string }.

Definition tools : PyDict.t tool_entry :=
  [ ("search",
     ToolEntry "Performs a standard, fast search using the Tavily AI search engine. Best for general queries and recent events."
               "tavily_search");
    ("deep_search",
     ToolEntry "Performs a comprehensive, in-depth search using the Tavily AI search engine. Slower but more thorough. Use for research or complex topics."
               "tavily_deep_search");
    ("get_direct_answer",
     ToolEntry "Searches for a direct, conversational answer to a user's question. Use this when the user asks a direct question like 'What is...?' or 'How do I...?'."
               "tavily_get_direct_answer");
    ("search_specific_domains",
     ToolEntry "Performs a search focused only on a specific list of domains. Provide the query and a list of websites to search within."
               "tavily_search_specific_domains") ].

(** ** Tool implementation *)

Definition error_result (msg : string) : value := VDict [("error", VStr msg)].

Definition _tavily_base_search (payload : pydict) : exec value :=
  emit (EvCall "_tavily_base_search") ;;
  api_key <- os_environ_get "TAVILY_API_KEY" ;;
  match api_key with
  | None => ret (error_result "TAVILY_API_KEY environment variable not set.")
  | Some key =>
      if String.eqb key "" then
        ret (error_result "TAVILY_API_KEY environment variable not set.")
      else
        let payload := PyDict.set "api_key" (VStr key) payload in
        let url := "https://api.tavily.com/search" in
        except_RequestException
          (response <- requests_post url payload ;;
           raise_for_status response ;;
           response_json response)
          (fun e => ret (error_result ("API request failed: " ++ e)))
  end.

Definition tavily_search (query : value) : exec value :=
  emit (EvCall "tavily_search") ;;
  let payload :=
    [("query", query); ("search_depth", VStr "basic"); ("max_results", VInt 5)] in
  _tavily_base_search payload.

Definition tavily_deep_search (query : value) : exec value :=
  emit (EvCall "tavily_deep_search") ;;
  let payload :=
    [("query", query); ("search_depth", VStr "advanced"); ("max_results", VInt 8)] in
  _tavily_base_search payload.

Definition tavily_get_direct_answer (query : value) : exec value :=
  emit (EvCall "tavily_get_direct_answer") ;;
  let payload := [("query", query); ("include_answer", VBool true)] in
  _tavily_base_search payload.

Definition tavily_search_specific_domains (query domains : value) : exec value :=
  emit (EvCall "tavily_search_specific_domains") ;;
  let payload :=
    [("query", query); ("include_domains", domains); ("max_results", VInt 5)] in
  _tavily_base_search payload.

(** ** Calling a module-level function with [**params] *)

(** The functions a registry entry can name. *)
Inductive fn : Type :=
| Fn_tavily_search
| Fn_tavily_deep_search
| Fn_tavily_get_direct_answer
| Fn_tavily_search_specific_domains.

(** [f.__name__] *)
Definition fn_name (f : fn) : string :=
  match f with
  | Fn_tavily_search => "tavily_search"
  | Fn_tavily_deep_search => "tavily_deep_search"
  | Fn_tavily_get_direct_answer => "tavily_get_direct_answer"
  | Fn_tavily_search_specific_domains => "tavily_search_specific_domains"
  end.

(** The parameters of the [def], all required, none with a default. *)
Definition fn_params (f : fn) : list string :=
  match f with
  | Fn_tavily_search => ["query"]
  | Fn_tavily_deep_search => ["query"]
  | Fn_tavily_get_direct_answer => ["query"]
  | Fn_tavily_search_specific_domains => ["query"; "domains"]
  end.

(** [globals()], restricted to the tool functions: the names the registry
    refers to. *)
Definition module_globals : PyDict.t fn :=
  [ ("tavily_search", Fn_tavily_search);
    ("tavily_deep_search", Fn_tavily_deep_search);
    ("tavily_get_direct_answer", Fn_tavily_get_direct_answer);
    ("tavily_search_specific_domains", Fn_tavily_search_specific_domains) ].

Definition in_names (k : string) (names : list string) : bool :=
  existsb (String.eqb k) names.

(** The first keyword, in the dict's order, that names no parameter. *)
Fixpoint first_unexpected (params : list string) (kwargs : pydict) : option string :=
  match kwargs with
  | [] => None
  | (k, _) :: rest =>
      if in_names k params then first_unexpected params rest else Some k
  end.

(** The parameters that received no argument, in the order of the [def]. *)
Definition missing_arguments (params : list string) (kwargs : pydict) : list string :=
  filter (fun p => negb (PyDict.mem p kwargs)) params.

Definition quote (s : string) : string := "'" ++ s ++ "'".

Fixpoint name_list (names : list string) : string :=
  match names with
  | [] => ""
  | [a] => quote a
  | [a; b] => quote a ++ " and " ++ quote b
  | a :: rest => quote a ++ ", " ++ name_list rest
  end.

Definition unexpected_keyword (f : fn) (k : string) : exn :=
  TypeError (fn_name f ++ "() got an unexpected keyword argument " ++ quote k).

Definition missing_required (f : fn) (names : list string) : exn :=
  TypeError (fn_name f ++ "() missing " ++ str_of_Z (Z.of_nat (length names))
             ++ " required positional argument"
             ++ (if (length names =? 1)%nat then "" else "s")
             ++ ": " ++ name_list names).

(** This message names the function with its module. *)
Definition not_a_mapping (module : string) (f : fn) (v : value) : exn :=
  TypeError (module ++ "." ++ fn_name f
             ++ "() argument after ** must be a mapping, not " ++ type_name v).

(** The call [function_to_call] makes on [**params]: the argument must be a mapping, every
    keyword must name a parameter, every parameter must receive a value;
    annotations are not checked.  Then the body runs. *)
Definition call_with_kwargs (f : fn) (params : value) : exec value :=
  match params with
  | VDict kwargs =>
      match first_unexpected (fn_params f) kwargs with
      | Some k => raise (unexpected_keyword f k)
      | None =>
          let missing := raise (missing_required f (missing_arguments (fn_params f) kwargs)) in
          match f with
          | Fn_tavily_search =>
              match PyDict.get "query" kwargs with
              | Some query => tavily_search query
              | None => missing
              end
          | Fn_tavily_deep_search =>
              match PyDict.get "query" kwargs with
              | Some query => tavily_deep_search query
              | None => missing
              end
          | Fn_tavily_get_direct_answer =>
              match PyDict.get "query" kwargs with
              | Some query => tavily_get_direct_answer query
              | None => missing
              end
          | Fn_tavily_search_specific_domains =>
              match PyDict.get "query" kwargs, PyDict.get "domains" kwargs with
              | Some query, Some domains => tavily_search_specific_domains query domains
              | _, _ => missing
              end
          end
      end
  | _ => w <- ask ;; raise (not_a_mapping (module_name w) f params)
  end.

(** ** MCP server endpoints *)

(** The view of [GET /.well-known/ai-plugin.json]: a fixed document. *)
Definition get_plugin_info : exec response :=
  jsonify
         (VDict
            [("schema_version", VStr "v1");
             ("name_for_human", VStr "Tavily Search MCP");
             ("name_for_model", VStr "tavily_search");
             ("description_for_human",
              VStr "Server for interacting with the Tavily Search API.");
             ("description_for_model",
              VStr "This server provides tools to search the web using the Tavily AI search engine. Use it to find current information.");
             ("api",
              VDict [("type", VStr "open_api"); ("url", VStr "/openapi.yaml")])]).

(** [data.get(key, default)]: only a dict has the method. *)
Definition data_get (data : value) (key : string) (default : value) : exec value :=
  match data with
  | VDict d => ret (PyDict.get_default key default d)
  | _ =>
      raise (AttributeError (quote (type_name data) ++ " object has no attribute 'get'"))
  end.

(** [tools.get(tool_name)] as the test [tool_name not in tools] and the
    subscription [tools[tool_name]] perform it: the key is hashed first; only
    a [str] equal to a key is found. *)
Definition tools_lookup (tool_name : value) : exec (option tool_entry) :=
  match tool_name with
  | VStr s => ret (PyDict.get s tools)
  | VList _ | VDict _ =>
      raise (TypeError ("unhashable type: " ++ quote (type_name tool_name)))
  | _ => ret None
  end.

Definition handle_tool_call (data : value) : exec response :=
  tool_name <- data_get data "tool" VNone ;;
  params <- data_get data "params" (VDict []) ;;
  entry <- tools_lookup tool_name ;;
  match entry with
  | None =>
      r <- jsonify (error_result ("Tool '" ++ py_str tool_name ++ "' not found.")) ;;
      ret (with_status r 404)
  | Some entry =>
      let function_name := function entry in
      let function_to_call := PyDict.get function_name module_globals in
      match function_to_call with
      | None =>
          r <- jsonify (error_result ("Function implementation for '"
                                      ++ py_str tool_name ++ "' not found.")) ;;
          ret (with_status r 500)
      | Some f =>
          except_TypeError
            (result <- call_with_kwargs f params ;;
             jsonify result)
            (fun e =>
               r <- jsonify (error_result ("Invalid parameters for tool '"
                                           ++ py_str tool_name ++ "': " ++ e)) ;;
               ret (with_status r 400))
      end
  end.




(** Running a request: the response or the exception that leaves the view
    function, and the events on the way. *)
Definition run {A} (m : exec A) (w : world) : result A * trace := m w.

(** ** Sample worlds and requests *)

Definition api_url : string := "https://api.tavily.com/search".

(** No [TAVILY_API_KEY] in the environment. *)
Definition world_without_key : world :=
  World [("HOME", "/srv")] (fun _ _ => Transport_failure "unreachable")
        "__main__" 40.

(** [TAVILY_API_KEY] set to the empty string. *)
Definition world_with_empty_key : world :=
  World [("TAVILY_API_KEY", "")] (fun _ _ => Transport_failure "unreachable")
        "__main__" 40.

(** [TAVILY_API_KEY=tvly-test]; the remote API answers every request with [o]. *)
Definition world_with_key (o : post_outcome) : world :=
  World [("TAVILY_API_KEY", "tvly-test")] (fun _ _ => o) "__main__" 40.

Definition sample_results : value :=
  VDict [("query", VStr "hello"); ("results", VList [])].

(** The body [{"tool": name, "params": params}]. *)
Definition tool_request (name : string) (params : value) : value :=
  VDict [("tool", VStr name); ("params", params)].

(** * Properties *)

(** ** Dictionaries *)

Module PyDictFacts.
Section Facts.
Context {V : Type}.
Implicit Types (d : PyDict.t V) (k : string) (v : V).

Lemma get_set_same k v d : PyDict.get k (PyDict.set k v d) = Some v.
Proof.
  induction d as [|[k' v'] d IH]; simpl.
  - now rewrite String.eqb_refl.
  - destruct (String.eqb k k') eqn:E; simpl; rewrite ?String.eqb_refl, ?E; auto.
Qed.

Lemma In_keys_get k d : In k (PyDict.keys d) -> exists v, PyDict.get k d = Some v.
Proof.
  induction d as [|[k' v'] d IH]; simpl; [tauto|].
  intros [->|H].
  - rewrite String.eqb_refl. eauto.
  - destruct (String.eqb k k'); eauto.
Qed.

Lemma not_In_keys_get k d : ~ In k (PyDict.keys d) -> PyDict.get k d = None.
Proof.
  induction d as [|[k' v'] d IH]; simpl; [reflexivity|].
  intros H. destruct (String.eqb_spec k k') as [->|]; [tauto|].
  apply IH. tauto.
Qed.

End Facts.
End PyDictFacts.

Lemma in_names_In k names : in_names k names = true <-> In k names.
Proof.
  unfold in_names. rewrite existsb_exists. split.
  - intros [x [Hin Heq]]. apply String.eqb_eq in Heq. now subst.
  - intros H. exists k. split; [assumption | apply String.eqb_refl].
Qed.

(** Some keyword names no parameter exactly when [first_unexpected] finds one. *)
Lemma first_unexpected_Some params (kwargs : pydict) k :
  In k (PyDict.keys kwargs) -> ~ In k params ->
  exists k', first_unexpected params kwargs = Some k'.
Proof.
  induction kwargs as [|[k0 v0] kwargs IH]; simpl; [tauto|].
  intros Hin Hnot. destruct (in_names k0 params) eqn:E; [|eauto].
  destruct Hin as [->|Hin]; [|auto].
  apply in_names_In in E. contradiction.
Qed.

(** ** The client *)

Ltac unfold_exec :=
  unfold run, except_TypeError, except_RequestException, os_environ_get,
    requests_post, raise_for_status, response_json, emit, ask in *;
  cbn [ret bind raise catch Monad_exec MonadExc_exec] in *;
  unfold exec_bind, exec_ret, exec_raise, exec_catch in *.

Lemma base_search_unset payload w :
  PyDict.get "TAVILY_API_KEY" (environ w) = None ->
  _tavily_base_search payload w =
    (Ok (error_result "TAVILY_API_KEY environment variable not set."),
     [EvCall "_tavily_base_search"]).
Proof.
  intros H. unfold _tavily_base_search. unfold_exec. rewrite H. reflexivity.
Qed.

Lemma base_search_empty payload w :
  PyDict.get "TAVILY_API_KEY" (environ w) = Some "" ->
  _tavily_base_search payload w =
    (Ok (error_result "TAVILY_API_KEY environment variable not set."),
     [EvCall "_tavily_base_search"]).
Proof.
  intros H. unfold _tavily_base_search. unfold_exec. rewrite H. reflexivity.
Qed.

(** What the client does once the call of [requests.post] has an outcome. *)
Lemma base_search_key payload w key :
  PyDict.get "TAVILY_API_KEY" (environ w) = Some key -> key <> "" ->
  let sent := PyDict.set "api_key" (VStr key) payload in
  exists r,
    _tavily_base_search payload w =
      (r, [EvCall "_tavily_base_search"; EvPost api_url sent]) /\
    match remote w api_url sent with
    | Transport_failure d => r = Ok (error_result ("API request failed: " ++ d))
    | Post_raises cls d => r = Raise (OtherError cls d)
    | Responded c _ b =>
        if (400 <=? c) && (c <? 600)
        then exists d, r = Ok (error_result ("API request failed: " ++ d))
        else match b with
             | Json j => r = Ok j
             | NotJson d => r = Ok (error_result ("API request failed: " ++ d))
             | Json_raises cls d => r = Raise (OtherError cls d)
             end
    end.
Proof.
  intros H Hne sent. unfold _tavily_base_search. unfold_exec. rewrite H.
  destruct (String.eqb_spec key ""); [contradiction|].
  fold api_url. fold sent. cbn.
  destruct (remote w api_url sent) as [d|cls d|c r b]; cbn.
  - eexists; split; reflexivity.
  - eexists; split; reflexivity.
  - destruct ((400 <=? c) && (c <? 500)) eqn:E4; cbn.
    { assert (((400 <=? c) && (c <? 600)) = true) as -> by lia.
      eexists; split; [reflexivity | eexists; reflexivity]. }
    destruct ((500 <=? c) && (c <? 600)) eqn:E5; cbn.
    { assert (((400 <=? c) && (c <? 600)) = true) as -> by lia.
      eexists; split; [reflexivity | eexists; reflexivity]. }
    assert (((400 <=? c) && (c <? 600)) = false) as -> by lia.
    destruct b; cbn; eexists; split; reflexivity.
Qed.

(** The client's trace is its own entry, then at most the one call of
    [requests.post], with the credential of the environment in the payload;
    the client raises nothing before that call. *)
Lemma base_search_trace payload w :
  exists r t,
    _tavily_base_search payload w = (r, EvCall "_tavily_base_search" :: t) /\
    ((t = [] /\ exists v, r = Ok v) \/
     exists key,
       PyDict.get "TAVILY_API_KEY" (environ w) = Some key /\ key <> "" /\
       t = [EvPost api_url (PyDict.set "api_key" (VStr key) payload)]) /\
    (forall e, r = Raise e -> exists cls msg, e = OtherError cls msg).
Proof.
  destruct (PyDict.get "TAVILY_API_KEY" (environ w)) as [key|] eqn:E.
  - destruct (String.eqb_spec key "") as [->|Hne].
    + rewrite (base_search_empty _ _ E).
      do 2 eexists. split; [reflexivity|]. split; [left; eauto | discriminate].
    + destruct (base_search_key payload w key E Hne) as [r [-> Hr]].
      do 2 eexists. split; [reflexivity|]. split; [right; exists key; auto|].
      intros e ->.
      destruct (remote w api_url _) as [d|cls d|c r0 b]; try discriminate Hr.
      * injection Hr as ->. eauto.
      * destruct ((400 <=? c) && (c <? 600)).
        -- destruct Hr as [d Hr]. discriminate Hr.
        -- destruct b; try discriminate Hr. injection Hr as ->. eauto.
  - rewrite (base_search_unset _ _ E).
    do 2 eexists. split; [reflexivity|]. split; [left; eauto | discriminate].
Qed.

Lemma base_search_cases payload w :
  exists r t,
    _tavily_base_search payload w = (r, t) /\
    (posts t = [] \/
     exists key,
       PyDict.get "TAVILY_API_KEY" (environ w) = Some key /\ key <> "" /\
       posts t = [(api_url, PyDict.set "api_key" (VStr key) payload)]).
Proof.
  destruct (base_search_trace payload w) as [r [t [-> [[[-> _]|[key [Hk [Hne ->]]]] _]]]];
    do 2 eexists; (split; [reflexivity|]); [now left|].
  right. exists key. auto.
Qed.

(** Without a credential the client returns its error dictionary. *)
Lemma base_search_no_credential payload w :
  PyDict.get "TAVILY_API_KEY" (environ w) = None \/
  PyDict.get "TAVILY_API_KEY" (environ w) = Some "" ->
  _tavily_base_search payload w =
    (Ok (error_result "TAVILY_API_KEY environment variable not set."),
     [EvCall "_tavily_base_search"]).
Proof.
  intros [H|H]; [now apply base_search_unset | now apply base_search_empty].
Qed.

(** ** The encoder *)

Lemma jsonify_error msg w :
  jsonify (error_result msg) w = (Ok (Response (error_result msg) 200), []).
Proof.
  reflexivity.
Qed.

Lemma jsonify_cases v w :
  (jsonify v w = (Ok (Response v 200), []) /\
   (nesting v <= encoder_limit w)%nat) \/
  (exists msg, jsonify v w = (Raise (OtherError "RecursionError" msg), []) /\
               (encoder_limit w < nesting v)%nat).
Proof.
  unfold jsonify. unfold_exec.
  destruct (Nat.leb_spec (nesting v) (encoder_limit w)); cbn; eauto.
Qed.

(** ** The tool functions *)

Lemma builder_runs name payload w :
  (emit (EvCall name) ;; _tavily_base_search payload) w =
    (fst (_tavily_base_search payload w),
     EvCall name :: snd (_tavily_base_search payload w)).
Proof.
  unfold_exec. now destruct (_tavily_base_search payload w) as [[v|e] t].
Qed.

(** The payload each tool function hands to the client. *)
Lemma call_with_kwargs_cases f params w :
  (exists msg, call_with_kwargs f params w = (Raise (TypeError msg), [])) \/
  (exists payload,
     call_with_kwargs f params w =
       (fst (_tavily_base_search payload w),
        EvCall (fn_name f) :: snd (_tavily_base_search payload w))).
Proof.
  unfold call_with_kwargs.
  destruct params as [| | | | | |kwargs];
    try (left; eexists; reflexivity).
  destruct (first_unexpected (fn_params f) kwargs);
    [left; eexists; reflexivity|].
  destruct f; cbn [fn_name];
    destruct (PyDict.get "query" kwargs);
    try (left; eexists; reflexivity);
    try (right; eexists; apply builder_runs).
  destruct (PyDict.get "domains" kwargs);
    [right; eexists; apply builder_runs | left; eexists; reflexivity].
Qed.

(** A keyword that names no parameter is a [TypeError], whatever else the
    dict holds. *)
Lemma call_unexpected_keyword f (kwargs : pydict) k w :
  In k (PyDict.keys kwargs) -> ~ In k (fn_params f) ->
  exists msg, call_with_kwargs f (VDict kwargs) w = (Raise (TypeError msg), []).
Proof.
  intros Hin Hnot. unfold call_with_kwargs.
  destruct (first_unexpected_Some _ _ _ Hin Hnot) as [k' ->].
  eexists; reflexivity.
Qed.

(** A parameter without an argument is a [TypeError]. *)
Lemma call_missing_argument f (kwargs : pydict) p w :
  In p (fn_params f) -> ~ In p (PyDict.keys kwargs) ->
  exists msg, call_with_kwargs f (VDict kwargs) w = (Raise (TypeError msg), []).
Proof.
  intros Hin Hnot. apply PyDictFacts.not_In_keys_get in Hnot.
  unfold call_with_kwargs.
  destruct (first_unexpected (fn_params f) kwargs); [eexists; reflexivity|].
  destruct f; cbn [fn_params] in Hin; simpl in Hin;
    repeat match goal with
           | H : _ \/ _ |- _ => destruct H
           | H : False |- _ => destruct H
           | H : _ = p |- _ => subst p
           end;
    rewrite ?Hnot; try (eexists; reflexivity).
  destruct (PyDict.get "query" kwargs); eexists; reflexivity.
Qed.

(** Anything but a dict after [**] is a [TypeError]. *)
Lemma call_not_a_mapping f params w :
  (forall kwargs, params <> VDict kwargs) ->
  exists msg, call_with_kwargs f params w = (Raise (TypeError msg), []).
Proof.
  intros H. destruct params; try (eexists; reflexivity).
  now contradiction (H d).
Qed.

(** ** More on dictionaries and keyword binding *)

Lemma get_set_other {V} (k k' : string) (v : V) (d : PyDict.t V) :
  k <> k' -> PyDict.get k' (PyDict.set k v d) = PyDict.get k' d.
Proof.
  intros Hne. induction d as [|[k0 v0] d IH]; simpl.
  - destruct (String.eqb_spec k' k); congruence.
  - destruct (String.eqb_spec k k0) as [->|]; simpl.
    + destruct (String.eqb_spec k' k0); congruence.
    + now rewrite IH.
Qed.

Lemma get_None_not_key {V} (k : string) (d : PyDict.t V) :
  PyDict.get k d = None -> ~ In k (PyDict.keys d).
Proof.
  intros H Hin. apply PyDictFacts.In_keys_get in Hin as [v Hv]. congruence.
Qed.

Lemma first_unexpected_all_expected params (kwargs : pydict) :
  (forall k, In k (PyDict.keys kwargs) -> In k params) ->
  first_unexpected params kwargs = None.
Proof.
  induction kwargs as [|[k0 v0] kwargs IH]; simpl; [reflexivity|].
  intros H. rewrite (proj2 (in_names_In k0 params)) by auto. auto.
Qed.

Lemma first_unexpected_is_unexpected params (kwargs : pydict) k :
  first_unexpected params kwargs = Some k ->
  In k (PyDict.keys kwargs) /\ ~ In k params.
Proof.
  induction kwargs as [|[k0 v0] kwargs IH]; simpl; [discriminate|].
  destruct (in_names k0 params) eqn:E.
  - intros H. destruct (IH H). auto.
  - intros [= <-]. split; [now left|].
    intros Hin. apply in_names_In in Hin. congruence.
Qed.

Lemma first_unexpected_None_keys params (kwargs : pydict) :
  first_unexpected params kwargs = None ->
  forall k, In k (PyDict.keys kwargs) -> In k params.
Proof.
  induction kwargs as [|[k0 v0] kwargs IH]; simpl; [tauto|].
  destruct (in_names k0 params) eqn:E; [|discriminate].
  intros H k [<-|Hin]; [now apply in_names_In | auto].
Qed.

Lemma get_Some_key {V} (k : string) (v : V) (d : PyDict.t V) :
  PyDict.get k d = Some v -> In k (PyDict.keys d).
Proof.
  induction d as [|[k' v'] d IH]; simpl; [discriminate|].
  destruct (String.eqb_spec k k'); auto.
Qed.

Lemma keys_set {V} (k : string) (v : V) (d : PyDict.t V) :
  PyDict.keys (PyDict.set k v d) =
    if PyDict.mem k d then PyDict.keys d else (PyDict.keys d ++ [k])%list.
Proof.
  unfold PyDict.mem. induction d as [|[k0 v0] d IH]; simpl; [reflexivity|].
  destruct (String.eqb_spec k k0) as [->|Hne]; simpl; [reflexivity|].
  rewrite IH. now destruct (PyDict.get k d).
Qed.

Lemma query_is_a_parameter f : In "query" (fn_params f).
Proof.
  destruct f; cbn; auto.
Qed.

Lemma api_key_not_a_parameter f : ~ In "api_key" (fn_params f).
Proof.
  destruct f; cbn; intuition discriminate.
Qed.

(** ** The registry *)

Lemma tools_keys name entry :
  PyDict.get name tools = Some entry ->
  (name = "search" /\ function entry = "tavily_search") \/
  (name = "deep_search" /\ function entry = "tavily_deep_search") \/
  (name = "get_direct_answer" /\ function entry = "tavily_get_direct_answer") \/
  (name = "search_specific_domains" /\
   function entry = "tavily_search_specific_domains").
Proof.
  unfold tools. cbn [PyDict.get].
  repeat match goal with
         | |- context [String.eqb name ?s] => destruct (String.eqb_spec name s) as [->|]
         end;
    intros H; inversion H; subst; cbn; auto 6.
Qed.

Lemma registry_entry_function name entry :
  PyDict.get name tools = Some entry ->
  exists f, PyDict.get (function entry) module_globals = Some f /\
            fn_name f = function entry.
Proof.
  intros H. apply tools_keys in H.
  destruct H as [[_ ->]|[[_ ->]|[[_ ->]|[_ ->]]]]; eexists; split; reflexivity.
Qed.

(** ** The dispatch endpoint *)

(** An unregistered name ends the request at the first test. *)
Lemma handle_unknown d w :
  let tool := PyDict.get_default "tool" VNone d in
  tools_lookup tool w = (Ok None, []) ->
  handle_tool_call (VDict d) w =
    (Ok (Response (error_result ("Tool '" ++ py_str tool ++ "' not found.")) 404),
     []).
Proof.
  intros tool H. unfold handle_tool_call, data_get. unfold_exec.
  fold tool. rewrite H. reflexivity.
Qed.

(** A registered name runs its function on [params]; a [TypeError] of the
    call becomes the 400 response, a returned value goes to [jsonify]. *)
Lemma handle_registered d w name entry f :
  PyDict.get_default "tool" VNone d = VStr name ->
  PyDict.get name tools = Some entry ->
  PyDict.get (function entry) module_globals = Some f ->
  handle_tool_call (VDict d) w =
    match call_with_kwargs f (PyDict.get_default "params" (VDict []) d) w with
    | (Ok v, t) => (fst (jsonify v w), t)
    | (Raise (TypeError msg), t) =>
        (Ok (Response
               (error_result ("Invalid parameters for tool '" ++ name ++ "': " ++ msg))
               400), t)
    | (Raise e, t) => (Raise e, t)
    end.
Proof.
  intros Ht He Hf. unfold handle_tool_call, data_get, tools_lookup. unfold_exec.
  rewrite Ht. cbv beta iota. rewrite He. cbv beta iota. rewrite Hf.
  destruct (call_with_kwargs f _ w) as [[v|e] t].
  - cbn -[jsonify].
    destruct (jsonify_cases v w) as [[-> _]|[msg [-> _]]]; cbn;
      rewrite ?app_nil_r; reflexivity.
  - destruct e; cbn; rewrite ?app_nil_r; reflexivity.
Qed.

(** Every way a request can end. *)
Lemma handle_tool_call_cases data w :
  (exists msg, handle_tool_call data w = (Raise (AttributeError msg), []) /\
               forall d, data <> VDict d) \/
  (exists msg d, handle_tool_call data w = (Raise (TypeError msg), []) /\
                 data = VDict d /\
                 hashable (PyDict.get_default "tool" VNone d) = false) \/
  (exists msg code,
     handle_tool_call data w = (Ok (Response (error_result msg) code), []) /\
     (code = 404 \/ code = 400)) \/
  (exists name payload,
     handle_tool_call data w =
       (match fst (_tavily_base_search payload w) with
        | Ok v => fst (jsonify v w)
        | Raise e => Raise e
        end,
        EvCall name :: snd (_tavily_base_search payload w))).
Proof.
  destruct data as [| | | | | |d];
    try (left; eexists; split; [reflexivity | intros d; discriminate]).
  right.
  destruct (PyDict.get_default "tool" VNone d) as [| | | |name| |] eqn:Ht;
    try (right; left; do 2 eexists; split;
         [apply handle_unknown; rewrite Ht; reflexivity | now left]);
    try (left; exists ("unhashable type: " ++ quote (type_name (PyDict.get_default "tool" VNone d))), d;
         split;
         [unfold handle_tool_call, data_get, tools_lookup; unfold_exec;
          rewrite Ht; reflexivity
         | rewrite Ht; split; reflexivity]).
  right.
  destruct (PyDict.get name tools) as [entry|] eqn:He.
  - destruct (registry_entry_function _ _ He) as [f [Hf _]].
    rewrite (handle_registered d w name entry f Ht He Hf).
    destruct (call_with_kwargs_cases f (PyDict.get_default "params" (VDict []) d) w)
      as [[msg ->]|[payload ->]].
    + left. do 2 eexists. split; [reflexivity | now right].
    + right. exists (fn_name f), payload.
      destruct (base_search_trace payload w) as [r [t [Hb [_ Hr]]]].
      rewrite Hb. cbn [fst snd].
      destruct r as [v|e]; [reflexivity|].
      destruct (Hr e eq_refl) as [cls [msg ->]]. reflexivity.
  - left. do 2 eexists. split; [|now left].
    apply handle_unknown. rewrite Ht. unfold tools_lookup. now rewrite He.
Qed.

(** The POSTs of a request carry the credential of the environment. *)
Lemma base_search_posts payload w u p :
  In (u, p) (posts (snd (_tavily_base_search payload w))) ->
  exists key,
    PyDict.get "TAVILY_API_KEY" (environ w) = Some key /\ key <> "" /\
    u = api_url /\ p = PyDict.set "api_key" (VStr key) payload.
Proof.
  destruct (base_search_cases payload w) as [r [t [-> [Hp|[key [Hk [Hne Hp]]]]]]];
    cbn [snd]; rewrite Hp; cbn [In]; [tauto|].
  intros [H|[]]. inversion H; subst. eauto.
Qed.

Lemma handle_posts data w u p :
  In (u, p) (posts (snd (handle_tool_call data w))) ->
  exists key payload,
    PyDict.get "TAVILY_API_KEY" (environ w) = Some key /\ key <> "" /\
    u = api_url /\ p = PyDict.set "api_key" (VStr key) payload.
Proof.
  destruct (handle_tool_call_cases data w)
    as [[msg [-> _]]|[[msg [d [-> _]]]|[[msg [code [-> _]]]|[name [payload ->]]]]];
    cbn; try tauto.
  intros H. apply base_search_posts in H as [key Hkey].
  exists key, payload. exact Hkey.
Qed.


(** A call is turned down only for its shape. *)
Lemma call_TypeError_shape f params w msg t :
  call_with_kwargs f params w = (Raise (TypeError msg), t) ->
  (forall kwargs, params <> VDict kwargs) \/
  (exists kwargs k,
     params = VDict kwargs /\ In k (PyDict.keys kwargs) /\ ~ In k (fn_params f)) \/
  (exists kwargs p,
     params = VDict kwargs /\ In p (fn_params f) /\ ~ In p (PyDict.keys kwargs)).
Proof.
  assert (forall name payload,
            (emit (EvCall name) ;; _tavily_base_search payload) w
              <> (Raise (TypeError msg), t)) as Hrun.
  { intros name payload H. rewrite builder_runs in H.
    destruct (base_search_trace payload w) as [r [t' [Hb [_ Hr]]]].
    rewrite Hb in H. cbn in H. injection H as -> _.
    destruct (Hr _ eq_refl) as [cls [m He]]. discriminate He. }
  destruct params as [| | | | | |kwargs];
    try (intros _; left; intros kwargs; discriminate).
  intros H. right. unfold call_with_kwargs in H.
  destruct (first_unexpected (fn_params f) kwargs) as [k|] eqn:Eu.
  { left. exists kwargs, k. split; [reflexivity|].
    now apply first_unexpected_is_unexpected. }
  right. exists kwargs.
  unfold tavily_search, tavily_deep_search, tavily_get_direct_answer,
    tavily_search_specific_domains in H.
  destruct (PyDict.get "query" kwargs) as [q|] eqn:Eq.
  - destruct f; try (now apply Hrun in H).
    destruct (PyDict.get "domains" kwargs) as [ds|] eqn:Ed;
      [now apply Hrun in H|].
    exists "domains". split; [reflexivity|].
    split; [cbn; auto | now apply get_None_not_key].
  - exists "query". split; [reflexivity|].
    split; [apply query_is_a_parameter | now apply get_None_not_key].
Qed.

(** A dict whose keys are the parameters, all of them and no other, enters
    the function; the client's answer is the answer of the call. *)
Lemma call_accepted f (kwargs : pydict) w :
  (forall k, In k (PyDict.keys kwargs) -> In k (fn_params f)) ->
  (forall p, In p (fn_params f) -> In p (PyDict.keys kwargs)) ->
  exists payload,
    call_with_kwargs f (VDict kwargs) w =
      (fst (_tavily_base_search payload w),
       EvCall (fn_name f) :: snd (_tavily_base_search payload w)) /\
    PyDict.get "query" payload = PyDict.get "query" kwargs /\
    ~ In "api_key" (PyDict.keys payload).
Proof.
  intros Hsub Hall. unfold call_with_kwargs.
  rewrite (first_unexpected_all_expected _ _ Hsub).
  destruct (PyDictFacts.In_keys_get "query" kwargs (Hall _ (query_is_a_parameter f)))
    as [q Hq].
  rewrite Hq.
  destruct f; cbn [fn_name];
    try (eexists; split; [apply builder_runs|];
         split; [reflexivity | cbn; intuition discriminate]).
  destruct (PyDictFacts.In_keys_get "domains" kwargs) as [ds Hd];
    [apply Hall; cbn; auto|].
  rewrite Hd. eexists; split; [apply builder_runs|].
  split; [reflexivity | cbn; intuition discriminate].
Qed.

(** A call that returns was given a dict whose keys are the parameters. *)
Lemma call_returns_shape f params w v t :
  call_with_kwargs f params w = (Ok v, t) ->
  exists kwargs,
    params = VDict kwargs /\
    (forall k, In k (PyDict.keys kwargs) -> In k (fn_params f)) /\
    (forall p, In p (fn_params f) -> In p (PyDict.keys kwargs)).
Proof.
  destruct params as [| | | | | |kwargs]; try discriminate.
  unfold call_with_kwargs.
  destruct (first_unexpected (fn_params f) kwargs) eqn:Eu; [discriminate|].
  intros H. exists kwargs. split; [reflexivity|].
  split; [now apply first_unexpected_None_keys|].
  destruct (PyDict.get "query" kwargs) as [q|] eqn:Eq;
    [|destruct f; discriminate H].
  apply get_Some_key in Eq.
  destruct f; cbn [fn_params];
    try (intros p [<-|[]]; assumption).
  destruct (PyDict.get "domains" kwargs) as [ds|] eqn:Ed; [|discriminate H].
  apply get_Some_key in Ed.
  intros p [<-|[<-|[]]]; assumption.
Qed.

(** A badly shaped [params] for a registered tool is the 400 response. *)
Lemma bad_parameters_400 w d name entry f params :
  PyDict.get_default "tool" VNone d = VStr name ->
  PyDict.get name tools = Some entry ->
  PyDict.get (function entry) module_globals = Some f ->
  PyDict.get_default "params" (VDict []) d = params ->
  (forall kwargs, params <> VDict kwargs) \/
  (exists kwargs k,
     params = VDict kwargs /\ In k (PyDict.keys kwargs) /\ ~ In k (fn_params f)) \/
  (exists kwargs p,
     params = VDict kwargs /\ In p (fn_params f) /\ ~ In p (PyDict.keys kwargs)) ->
  exists detail,
    handle_tool_call (VDict d) w =
      (Ok (Response
             (error_result ("Invalid parameters for tool '" ++ name ++ "': " ++ detail))
             400),
       []).
Proof.
  intros Ht He Hf Hp Hbad.
  rewrite (handle_registered d w name entry f Ht He Hf), Hp.
  assert (exists msg, call_with_kwargs f params w = (Raise (TypeError msg), []))
    as [msg ->].
  { destruct Hbad as [H|[[kwargs [k [-> [Hin Hnot]]]]|[kwargs [p [-> [Hin Hnot]]]]]].
    - now apply call_not_a_mapping.
    - now apply call_unexpected_keyword with k.
    - now apply call_missing_argument with p. }
  exists msg. reflexivity.
Qed.



(** Every way a request can end, by what the caller sees. *)
Lemma handle_tool_call_outcomes data w :
  (exists resp,
     fst (handle_tool_call data w) = Ok resp /\
     (status resp = 200 \/ status resp = 400 \/ status resp = 404)) \/
  (exists msg,
     handle_tool_call data w = (Raise (AttributeError msg), []) /\
     forall d, data <> VDict d) \/
  (exists msg d,
     handle_tool_call data w = (Raise (TypeError msg), []) /\
     data = VDict d /\ hashable (PyDict.get_default "tool" VNone d) = false) \/
  (exists cls msg,
     fst (handle_tool_call data w) = Raise (OtherError cls msg) /\
     posts (snd (handle_tool_call data w)) <> []).
Proof.
  destruct (handle_tool_call_cases data w)
    as [H|[H|[[msg [code [E Hc]]]|[name [payload E]]]]]; auto.
  - left. rewrite E. eexists. split; [reflexivity|]. cbn. tauto.
  - rewrite E. cbn [fst snd posts].
    destruct (PyDict.get "TAVILY_API_KEY" (environ w)) as [key|] eqn:Hk.
    + destruct (String.eqb_spec key "") as [->|Hne].
      * rewrite (base_search_empty _ _ Hk). cbn [fst]. rewrite jsonify_error.
        left. eexists. split; [reflexivity|]. cbn. tauto.
      * destruct (base_search_key payload w key Hk Hne) as [r [Hb _]].
        destruct (base_search_trace payload w) as [r' [t' [Hb' [_ Hr]]]].
        rewrite Hb. rewrite Hb in Hb'. injection Hb' as <- _.
        cbn [fst snd posts].
        destruct r as [v|e].
        -- destruct (jsonify_cases v w) as [[-> _]|[msg [-> _]]]; cbn [fst].
           ++ left. eexists. split; [reflexivity|]. cbn. tauto.
           ++ right; right; right. do 2 eexists. split; [reflexivity|discriminate].
        -- destruct (Hr e eq_refl) as [cls [msg ->]].
           right; right; right. do 2 eexists. split; [reflexivity|discriminate].
    + rewrite (base_search_unset _ _ Hk). cbn [fst]. rewrite jsonify_error.
      left. eexists. split; [reflexivity|]. cbn. tauto.
Qed.

(** * The claims *)

(** C1.  Each of the four tool functions, called with a query (and, for the
    domain-scoped one, a domain list) in a process that has a credential,
    sends exactly one payload: the fields of the defaults table with the
    values of the table, in the order of the source, followed by the injected
    [api_key] and nothing else.  The payload depends on the arguments alone:
    standard is query, search_depth basic, max_results 5; deep is query,
    search_depth advanced, max_results 8; direct-answer is query,
    include_answer true; domain-scoped is query, include_domains as given,
    max_results 5. *)
Theorem builders_follow_defaults_table w key query domains :
  PyDict.get "TAVILY_API_KEY" (environ w) = Some key -> key <> "" ->
  posts (snd (run (tavily_search query) w)) =
    [(api_url,
      [("query", query); ("search_depth", VStr "basic"); ("max_results", VInt 5);
       ("api_key", VStr key)])] /\
  posts (snd (run (tavily_deep_search query) w)) =
    [(api_url,
      [("query", query); ("search_depth", VStr "advanced"); ("max_results", VInt 8);
       ("api_key", VStr key)])] /\
  posts (snd (run (tavily_get_direct_answer query) w)) =
    [(api_url,
      [("query", query); ("include_answer", VBool true); ("api_key", VStr key)])] /\
  posts (snd (run (tavily_search_specific_domains query domains) w)) =
    [(api_url,
      [("query", query); ("include_domains", domains); ("max_results", VInt 5);
       ("api_key", VStr key)])].
Proof.
  intros Hk Hne.
  unfold run, tavily_search, tavily_deep_search, tavily_get_direct_answer,
    tavily_search_specific_domains.
  rewrite !builder_runs. cbn [snd posts].
  repeat split;
    match goal with
    | |- context [_tavily_base_search ?p w] =>
        destruct (base_search_key p w key Hk Hne) as [v [-> _]]
    end; reflexivity.
Qed.

Lemma builders_follow_defaults_table_witness :
  posts (snd (run (tavily_search (VStr "hello"))
                  (world_with_key (Responded 200 "OK" (Json sample_results))))) =
    [(api_url,
      [("query", VStr "hello"); ("search_depth", VStr "basic");
       ("max_results", VInt 5); ("api_key", VStr "tvly-test")])].
Proof.
  apply (builders_follow_defaults_table
           (world_with_key (Responded 200 "OK" (Json sample_results)))
           "tvly-test" (VStr "hello") (VList [VStr "a.com"; VStr "b.com"]));
    [reflexivity | discriminate].
Defined.

(** C2.  In every payload the dispatch endpoint or the client sends to the
    network layer, [api_key] is the non-empty value of [TAVILY_API_KEY] in
    the environment.  A caller that passes [api_key] in [params] is turned
    away with no function entered and nothing sent: the answer is the 400 of
    a parameter mismatch, or the 404 of an unknown tool.  When no credential
    resolves (the variable is unset or empty) nothing is sent at all. *)
Theorem api_key_is_server_side w data :
  (forall u p,
     In (u, p) (posts (snd (run (handle_tool_call data) w))) ->
     exists key,
       PyDict.get "TAVILY_API_KEY" (environ w) = Some key /\ key <> "" /\
       PyDict.get "api_key" p = Some (VStr key)) /\
  (forall payload u p,
     In (u, p) (posts (snd (run (_tavily_base_search payload) w))) ->
     exists key,
       PyDict.get "TAVILY_API_KEY" (environ w) = Some key /\ key <> "" /\
       PyDict.get "api_key" p = Some (VStr key)) /\
  (forall d kwargs,
     data = VDict d ->
     PyDict.get_default "params" (VDict []) d = VDict kwargs ->
     In "api_key" (PyDict.keys kwargs) ->
     snd (run (handle_tool_call data) w) = [] /\
     forall resp, fst (run (handle_tool_call data) w) = Ok resp ->
                  status resp = 400 \/ status resp = 404) /\
  (PyDict.get "TAVILY_API_KEY" (environ w) = None \/
   PyDict.get "TAVILY_API_KEY" (environ w) = Some "" ->
   posts (snd (run (handle_tool_call data) w)) = []).
Proof.
  assert (forall d kwargs,
            PyDict.get_default "params" (VDict []) d = VDict kwargs ->
            In "api_key" (PyDict.keys kwargs) ->
            exists msg code,
              handle_tool_call (VDict d) w =
                (Ok (Response (error_result msg) code), []) /\
              (code = 400 \/ code = 404) \/
              exists e, handle_tool_call (VDict d) w = (Raise e, [])) as Hrej.
  { intros d kwargs Hp Hin.
    destruct (PyDict.get_default "tool" VNone d) as [| | | |name| |] eqn:Ht;
      try (do 2 eexists; left; split;
           [apply handle_unknown; rewrite Ht; reflexivity | now right]);
      try (exists "", 0; right; eexists;
           unfold handle_tool_call, data_get, tools_lookup; unfold_exec;
           rewrite Ht; reflexivity).
    destruct (PyDict.get name tools) as [entry|] eqn:He.
    - destruct (registry_entry_function _ _ He) as [f [Hf _]].
      rewrite (handle_registered d w name entry f Ht He Hf), Hp.
      destruct (call_unexpected_keyword f kwargs "api_key" w Hin
                  (api_key_not_a_parameter f)) as [msg ->].
      do 2 eexists; left; split; [reflexivity | now left].
    - do 2 eexists; left; split; [|now right].
      apply handle_unknown. rewrite Ht. unfold tools_lookup. now rewrite He. }
  unfold run. split; [|split; [|split; [intros d kwargs Hd Hp Hin; split|]]].
  - intros u p Hin. apply handle_posts in Hin as [key [payload [Hk [Hne [_ ->]]]]].
    exists key. repeat split; auto. apply PyDictFacts.get_set_same.
  - intros payload u p Hin. apply base_search_posts in Hin as [key [Hk [Hne [_ ->]]]].
    exists key. repeat split; auto. apply PyDictFacts.get_set_same.
  - subst data.
    destruct (Hrej d kwargs Hp Hin) as [msg [code [[-> _]|[e ->]]]]; reflexivity.
  - subst data.
    destruct (Hrej d kwargs Hp Hin) as [msg [code [[-> Hc]|[e ->]]]];
      [|discriminate].
    intros resp [= <-]. exact Hc.
  - intros Hunset.
    destruct (posts (snd (handle_tool_call data w))) as [|[u p] rest] eqn:E;
      [reflexivity|].
    assert (In (u, p) (posts (snd (handle_tool_call data w)))) as Hin
      by (rewrite E; now left).
    apply handle_posts in Hin as [key [payload [Hk [Hne _]]]].
    destruct Hunset; congruence.
Qed.

Lemma api_key_is_server_side_witness :
  (exists key,
     PyDict.get "TAVILY_API_KEY"
       (environ (world_with_key (Responded 200 "OK" (Json sample_results)))) =
       Some key /\ key <> "" /\
     PyDict.get "api_key"
       [("query", VStr "hello"); ("search_depth", VStr "basic");
        ("max_results", VInt 5); ("api_key", VStr "tvly-test")] = Some (VStr key)) /\
  snd (run (handle_tool_call
              (tool_request "search"
                 (VDict [("query", VStr "hello"); ("api_key", VStr "caller")])))
           (world_with_key (Responded 200 "OK" (Json sample_results)))) = [] /\
  posts (snd (run (handle_tool_call
                     (tool_request "search" (VDict [("query", VStr "hello")])))
                  world_without_key)) = [].
Proof.
  split; [|split].
  - apply (proj1 (api_key_is_server_side
                    (world_with_key (Responded 200 "OK" (Json sample_results)))
                    (tool_request "search" (VDict [("query", VStr "hello")])))
             api_url).
    vm_compute. left. reflexivity.
  - refine (proj1 (proj1 (proj2 (proj2 (api_key_is_server_side
                    (world_with_key (Responded 200 "OK" (Json sample_results)))
                    (tool_request "search"
                       (VDict [("query", VStr "hello"); ("api_key", VStr "caller")])))))
             [("tool", VStr "search");
              ("params", VDict [("query", VStr "hello"); ("api_key", VStr "caller")])]
             [("query", VStr "hello"); ("api_key", VStr "caller")]
             eq_refl eq_refl _)).
    simpl. right. left. reflexivity.
  - apply (proj2 (proj2 (proj2 (api_key_is_server_side world_without_key
                    (tool_request "search" (VDict [("query", VStr "hello")])))))).
    left. reflexivity.
Defined.

(** C3.  With no [TAVILY_API_KEY] in the environment the client returns the
    dictionary with the one field [error] set to "TAVILY_API_KEY environment
    variable not set.", whatever the payload, and sends nothing. *)
Theorem submit_without_credential payload w :
  PyDict.get "TAVILY_API_KEY" (environ w) = None ->
  fst (run (_tavily_base_search payload) w) =
    Ok (VDict [("error", VStr "TAVILY_API_KEY environment variable not set.")]) /\
  posts (snd (run (_tavily_base_search payload) w)) = [].
Proof.
  intros H. unfold run. rewrite (base_search_unset _ _ H). split; reflexivity.
Qed.

Lemma submit_without_credential_witness :
  fst (run (_tavily_base_search [("query", VStr "hello")]) world_without_key) =
    Ok (VDict [("error", VStr "TAVILY_API_KEY environment variable not set.")]) /\
  posts (snd (run (_tavily_base_search [("query", VStr "hello")]) world_without_key))
    = [].
Proof.
  apply (submit_without_credential [("query", VStr "hello")] world_without_key).
  reflexivity.
Defined.

(** C9.  The test is on the truth value of the credential: with
    [TAVILY_API_KEY] set to the empty string the client returns the same
    "TAVILY_API_KEY environment variable not set." error and sends nothing. *)
Theorem submit_with_empty_credential payload w :
  PyDict.get "TAVILY_API_KEY" (environ w) = Some "" ->
  fst (run (_tavily_base_search payload) w) =
    Ok (VDict [("error", VStr "TAVILY_API_KEY environment variable not set.")]) /\
  posts (snd (run (_tavily_base_search payload) w)) = [].
Proof.
  intros H. unfold run. rewrite (base_search_empty _ _ H). split; reflexivity.
Qed.

Lemma submit_with_empty_credential_witness :
  fst (run (_tavily_base_search [("query", VStr "hello")]) world_with_empty_key) =
    Ok (VDict [("error", VStr "TAVILY_API_KEY environment variable not set.")]) /\
  posts (snd (run (_tavily_base_search [("query", VStr "hello")])
                  world_with_empty_key)) = [].
Proof.
  apply (submit_with_empty_credential [("query", VStr "hello")] world_with_empty_key).
  reflexivity.
Defined.

(** C4, as stated, fails: a status outside 2xx that is neither 4xx nor 5xx
    passes [raise_for_status].  The remote API answers 300 with a JSON body;
    the client returns that body as a result, not an "API request failed"
    error. *)
Lemma status_300_is_returned_as_result :
  remote (world_with_key (Responded 300 "Multiple Choices" (Json sample_results)))
         api_url
         [("query", VStr "hello"); ("search_depth", VStr "basic");
          ("max_results", VInt 5); ("api_key", VStr "tvly-test")] =
    Responded 300 "Multiple Choices" (Json sample_results) /\
  ~ (200 <= 300 < 300) /\
  run (_tavily_base_search
         [("query", VStr "hello"); ("search_depth", VStr "basic");
          ("max_results", VInt 5)])
      (world_with_key (Responded 300 "Multiple Choices" (Json sample_results))) =
    (Ok sample_results,
     [EvCall "_tavily_base_search";
      EvPost api_url
        [("query", VStr "hello"); ("search_depth", VStr "basic");
         ("max_results", VInt 5); ("api_key", VStr "tvly-test")]]) /\
  ~ (exists details,
       fst (run (_tavily_base_search
                   [("query", VStr "hello"); ("search_depth", VStr "basic");
                    ("max_results", VInt 5)])
                (world_with_key
                   (Responded 300 "Multiple Choices" (Json sample_results)))) =
         Ok (VDict [("error", VStr ("API request failed: " ++ details))])).
Proof.
  repeat split; try lia.
  intros [details H]. vm_compute in H. discriminate H.
Qed.

(** C4, amended.  When the POST of a request fails in transport, or the
    remote API answers with a 4xx or 5xx status, the client returns the
    dictionary whose [error] is "API request failed: " followed by the
    details of the failure, and the dispatch endpoint relays that dictionary
    with status 200. *)
Theorem remote_failure_is_reported w :
  (forall payload u p,
     In (u, p) (posts (snd (run (_tavily_base_search payload) w))) ->
     (exists d, remote w u p = Transport_failure d) \/
     (exists c r b, remote w u p = Responded c r b /\ 400 <= c < 600) ->
     exists details,
       fst (run (_tavily_base_search payload) w) =
         Ok (VDict [("error", VStr ("API request failed: " ++ details))])) /\
  (forall data u p,
     In (u, p) (posts (snd (run (handle_tool_call data) w))) ->
     (exists d, remote w u p = Transport_failure d) \/
     (exists c r b, remote w u p = Responded c r b /\ 400 <= c < 600) ->
     exists details,
       fst (run (handle_tool_call data) w) =
         Ok (Response
               (VDict [("error", VStr ("API request failed: " ++ details))]) 200)).
Proof.
  assert (forall payload u p,
     In (u, p) (posts (snd (_tavily_base_search payload w))) ->
     (exists d, remote w u p = Transport_failure d) \/
     (exists c r b, remote w u p = Responded c r b /\ 400 <= c < 600) ->
     exists details,
       fst (_tavily_base_search payload w) =
         Ok (error_result ("API request failed: " ++ details))) as Hclient.
  { intros payload u p Hin Hfail.
    apply base_search_posts in Hin as [key [Hk [Hne [-> ->]]]].
    destruct (base_search_key payload w key Hk Hne) as [r [-> Hr]].
    cbn [fst]. destruct Hfail as [[d Hd]|[c [r0 [b [Hr0 Hc]]]]].
    - rewrite Hd in Hr. subst r. eauto.
    - rewrite Hr0 in Hr.
      assert (((400 <=? c) && (c <? 600)) = true) as E by lia.
      rewrite E in Hr. destruct Hr as [d ->]. eauto. }
  unfold run. split; [exact Hclient|].
  intros data u p Hin Hfail.
  destruct (handle_tool_call_cases data w)
    as [[msg [E _]]|[[msg [d [E _]]]|[[msg [code [E _]]]|[name [payload E]]]]];
    rewrite E in Hin |- *; cbn in Hin; try tauto.
  destruct (Hclient payload u p Hin Hfail) as [details Hd].
  rewrite Hd. exists details. reflexivity.
Qed.

Lemma remote_failure_is_reported_witness :
  exists details,
    fst (run (handle_tool_call (tool_request "search" (VDict [("query", VStr "hello")])))
             (world_with_key
                (Responded 500 "Internal Server Error" (NotJson "<html>")))) =
      Ok (Response (VDict [("error", VStr ("API request failed: " ++ details))]) 200).
Proof.
  apply (proj2 (remote_failure_is_reported
                  (world_with_key
                     (Responded 500 "Internal Server Error" (NotJson "<html>"))))
           (tool_request "search" (VDict [("query", VStr "hello")]))
           api_url
           [("query", VStr "hello"); ("search_depth", VStr "basic");
            ("max_results", VInt 5); ("api_key", VStr "tvly-test")]).
  - vm_compute. left. reflexivity.
  - right. exists 500, "Internal Server Error", (NotJson "<html>").
    split; [reflexivity | lia].
Defined.

(** C5.  The specification asks a 400 "Invalid parameters" answer for wrong
    names, wrong arity and wrong types, as the comment on the
    [except TypeError] branch says ("wrong name or type") and the
    annotations [query: str], [domains: list] declare.  The code misses the types: for the tool
    "search" a [query] that is the number 5 is bound like any other value,
    the payload is posted with it and the answer is relayed with status 200,
    not 400. *)
Lemma wrong_type_is_forwarded :
  run (handle_tool_call (tool_request "search" (VDict [("query", VInt 5)])))
      (world_with_key (Responded 200 "OK" (Json sample_results))) =
    (Ok (Response sample_results 200),
     [EvCall "tavily_search"; EvCall "_tavily_base_search";
      EvPost api_url
        [("query", VInt 5); ("search_depth", VStr "basic");
         ("max_results", VInt 5); ("api_key", VStr "tvly-test")]]) /\
  ~ (exists detail,
       fst (run (handle_tool_call
                   (tool_request "search" (VDict [("query", VInt 5)])))
                (world_with_key (Responded 200 "OK" (Json sample_results)))) =
         Ok (Response
               (VDict [("error",
                        VStr ("Invalid parameters for tool 'search': " ++ detail))])
               400)).
Proof.
  split; [reflexivity|].
  intros [detail H]. vm_compute in H. discriminate H.
Qed.

(** C6.  When the tool name of a request is not a key of the registry, the
    answer is status 404 with the body whose [error] is "Tool '<name>' not
    found.", the name printed as [str] prints it; no function is entered and
    nothing is sent.  The names are the values the membership test accepts:
    strings, and the numbers, booleans and null that equal no key. *)
Theorem unknown_tool_is_not_found w d tool :
  PyDict.get_default "tool" VNone d = tool ->
  hashable tool = true ->
  (forall s, tool = VStr s -> PyDict.get s tools = None) ->
  run (handle_tool_call (VDict d)) w =
    (Ok (Response
           (VDict [("error", VStr ("Tool '" ++ py_str tool ++ "' not found."))]) 404),
     []).
Proof.
  intros Ht Hh Hs. unfold run. subst tool. apply handle_unknown.
  destruct (PyDict.get_default "tool" VNone d) as [| | | |s| |];
    try reflexivity; try discriminate Hh.
  unfold tools_lookup. now rewrite (Hs s eq_refl).
Qed.

Lemma unknown_tool_is_not_found_witness :
  run (handle_tool_call (tool_request "unknown_tool" (VDict [])))
      (world_with_key (Responded 200 "OK" (Json sample_results))) =
    (Ok (Response (VDict [("error", VStr "Tool 'unknown_tool' not found.")]) 404),
     []).
Proof.
  apply (unknown_tool_is_not_found
           (world_with_key (Responded 200 "OK" (Json sample_results)))
           [("tool", VStr "unknown_tool"); ("params", VDict [])]
           (VStr "unknown_tool")).
  - reflexivity.
  - reflexivity.
  - intros s [= <-]. reflexivity.
Defined.




(** C8.  Every entry of the registry names a function of the module: the
    lookup of its [function] field among the globals finds the function of
    that name.  Hence no request is answered with status 500: the branch
    "Function implementation for '<name>' not found." is never taken. *)
Theorem registered_tools_resolve :
  (forall name entry,
     PyDict.get name tools = Some entry ->
     exists f, PyDict.get (function entry) module_globals = Some f /\
               fn_name f = function entry) /\
  (forall w data resp,
     fst (run (handle_tool_call data) w) = Ok resp -> status resp <> 500).
Proof.
  split.
  - exact registry_entry_function.
  - intros w data resp. unfold run.
    destruct (handle_tool_call_outcomes data w)
      as [[resp' [-> Hs]]|[[msg [-> _]]|[[msg [d [-> _]]]|[cls [msg [-> _]]]]]];
      try discriminate.
    intros [= <-]. lia.
Qed.

Lemma registered_tools_resolve_witness :
  (exists f, PyDict.get "tavily_search_specific_domains" module_globals = Some f /\
             fn_name f = "tavily_search_specific_domains") /\
  status (Response sample_results 200) <> 500.
Proof.
  split.
  - apply (proj1 registered_tools_resolve "search_specific_domains"
             (ToolEntry "Performs a search focused only on a specific list of domains. Provide the query and a list of websites to search within."
                        "tavily_search_specific_domains")).
    reflexivity.
  - apply (proj2 registered_tools_resolve
             (world_with_key (Responded 200 "OK" (Json sample_results)))
             (tool_request "search" (VDict [("query", VStr "hello")]))).
    reflexivity.
Defined.

(** C10.  A body without the [tool] field takes the unknown-tool branch: the
    name read is [None], no key of the registry equals it, and the answer is
    status 404 with the body whose [error] is "Tool 'None' not found."; no
    function is entered and nothing is sent. *)
Theorem missing_tool_field_is_not_found w d :
  PyDict.get "tool" d = None ->
  run (handle_tool_call (VDict d)) w =
    (Ok (Response (VDict [("error", VStr "Tool 'None' not found.")]) 404), []).
Proof.
  intros H. unfold run.
  rewrite handle_unknown; unfold PyDict.get_default; rewrite H; reflexivity.
Qed.

Lemma missing_tool_field_is_not_found_witness :
  run (handle_tool_call (VDict [("params", VDict [("query", VStr "hello")])]))
      (world_with_key (Responded 200 "OK" (Json sample_results))) =
    (Ok (Response (VDict [("error", VStr "Tool 'None' not found.")]) 404), []).
Proof.
  apply (missing_tool_field_is_not_found
           (world_with_key (Responded 200 "OK" (Json sample_results)))
           [("params", VDict [("query", VStr "hello")])]).
  reflexivity.
Defined.


(** * Further properties of the relay *)

(** ** The client *)

(** When [requests.post] returns a response whose status is neither 4xx nor
    5xx and whose body [response.json()] decodes, the client returns the
    decoded value as it is; the dispatch endpoint relays it with status 200
    when it nests no deeper than [jsonify] can encode. *)
Theorem remote_result_is_relayed w :
  (forall payload u p c r j,
     In (u, p) (posts (snd (run (_tavily_base_search payload) w))) ->
     remote w u p = Responded c r (Json j) -> ~ (400 <= c < 600) ->
     fst (run (_tavily_base_search payload) w) = Ok j) /\
  (forall data u p c r j,
     In (u, p) (posts (snd (run (handle_tool_call data) w))) ->
     remote w u p = Responded c r (Json j) -> ~ (400 <= c < 600) ->
     (nesting j <= encoder_limit w)%nat ->
     fst (run (handle_tool_call data) w) = Ok (Response j 200)).
Proof.
  assert (forall payload u p c r j,
     In (u, p) (posts (snd (_tavily_base_search payload w))) ->
     remote w u p = Responded c r (Json j) -> ~ (400 <= c < 600) ->
     fst (_tavily_base_search payload w) = Ok j) as Hclient.
  { intros payload u p c r j Hin Hr Hc.
    apply base_search_posts in Hin as [key [Hk [Hne [-> ->]]]].
    destruct (base_search_key payload w key Hk Hne) as [res [-> Hres]].
    rewrite Hr in Hres.
    assert (((400 <=? c) && (c <? 600)) = false) as E by lia.
    rewrite E in Hres. now subst res. }
  unfold run. split; [exact Hclient|].
  intros data u p c r j Hin Hr Hc Hn.
  destruct (handle_tool_call_cases data w)
    as [[msg [E _]]|[[msg [d [E _]]]|[[msg [code [E _]]]|[name [payload E]]]]];
    rewrite E in Hin |- *; cbn in Hin; try tauto.
  rewrite (Hclient payload u p c r j Hin Hr Hc). cbn [fst].
  destruct (jsonify_cases j w) as [[-> _]|[msg [_ Hlt]]]; [reflexivity | lia].
Qed.

Lemma remote_result_is_relayed_witness :
  fst (run (handle_tool_call
              (tool_request "deep_search" (VDict [("query", VStr "hello")])))
           (world_with_key (Responded 200 "OK" (Json sample_results)))) =
    Ok (Response sample_results 200).
Proof.
  apply (proj2 (remote_result_is_relayed
                  (world_with_key (Responded 200 "OK" (Json sample_results))))
           (tool_request "deep_search" (VDict [("query", VStr "hello")]))
           api_url
           [("query", VStr "hello"); ("search_depth", VStr "advanced");
            ("max_results", VInt 8); ("api_key", VStr "tvly-test")]
           200 "OK" sample_results).
  - vm_compute. left. reflexivity.
  - reflexivity.
  - lia.
  - vm_compute. lia.
Defined.

(** Injecting the credential touches [api_key] only: in the payload the
    client sends, every other field has the value it had in the payload the
    client was given, and the keys are those of that payload, in their order,
    with [api_key] added last when it was not among them. *)
Theorem credential_injection_keeps_fields payload w u p :
  In (u, p) (posts (snd (run (_tavily_base_search payload) w))) ->
  (forall k, k <> "api_key" -> PyDict.get k p = PyDict.get k payload) /\
  PyDict.keys p =
    if PyDict.mem "api_key" payload then PyDict.keys payload
    else (PyDict.keys payload ++ ["api_key"])%list.
Proof.
  unfold run. intros Hin.
  apply base_search_posts in Hin as [key [_ [_ [_ ->]]]]. split.
  - intros k Hk. apply get_set_other. congruence.
  - apply keys_set.
Qed.

Lemma credential_injection_keeps_fields_witness :
  (forall k, k <> "api_key" ->
     PyDict.get k [("api_key", VStr "tvly-test"); ("query", VStr "hello")] =
     PyDict.get k [("api_key", VStr "caller"); ("query", VStr "hello")]) /\
  PyDict.keys [("api_key", VStr "tvly-test"); ("query", VStr "hello")] =
    ["api_key"; "query"].
Proof.
  apply (credential_injection_keeps_fields
           [("api_key", VStr "caller"); ("query", VStr "hello")]
           (world_with_key (Transport_failure "connection refused"))
           api_url
           [("api_key", VStr "tvly-test"); ("query", VStr "hello")]).
  vm_compute. left. reflexivity.
Defined.

(** ** The dispatch endpoint *)

(** The relay calls [requests.post] at most once for a request, and only
    with the URL of the search endpoint: the code retries nothing, whatever
    the outcome of the call.  (What [requests] does inside the call, such as
    following a redirect, is not counted.) *)
Theorem requests_post_is_called_at_most_once data w :
  (length (posts (snd (run (handle_tool_call data) w))) <= 1)%nat /\
  forall u p, In (u, p) (posts (snd (run (handle_tool_call data) w))) ->
              u = "https://api.tavily.com/search".
Proof.
  unfold run. split.
  - destruct (handle_tool_call_cases data w)
      as [[msg [-> _]]|[[msg [d [-> _]]]|[[msg [code [-> _]]]|[name [payload ->]]]]];
      cbn [snd posts length]; try lia.
    destruct (base_search_cases payload w) as [r [t [-> Hp]]]. cbn [snd].
    destruct Hp as [->|[key [_ [_ ->]]]]; cbn; lia.
  - intros u p Hin. apply handle_posts in Hin as [key [payload [_ [_ [-> _]]]]].
    reflexivity.
Qed.

Lemma requests_post_is_called_at_most_once_witness :
  (length (posts (snd (run (handle_tool_call
                              (tool_request "search" (VDict [("query", VStr "hello")])))
                           (world_with_key (Transport_failure "timed out")))))
   <= 1)%nat /\
  api_url = "https://api.tavily.com/search".
Proof.
  split.
  - apply (proj1 (requests_post_is_called_at_most_once
                    (tool_request "search" (VDict [("query", VStr "hello")]))
                    (world_with_key (Transport_failure "timed out")))).
  - apply (proj2 (requests_post_is_called_at_most_once
                    (tool_request "search" (VDict [("query", VStr "hello")]))
                    (world_with_key (Transport_failure "timed out")))
             api_url
             [("query", VStr "hello"); ("search_depth", VStr "basic");
              ("max_results", VInt 5); ("api_key", VStr "tvly-test")]).
    vm_compute. left. reflexivity.
Defined.

(** For every registered tool, a [params] that is not a JSON object, or that
    holds a key naming no parameter of the tool's function, or that lacks
    one of its parameters, is answered with status 400 and the body whose
    [error] is "Invalid parameters for tool '<name>': " followed by a
    detail; no function body runs and nothing is sent. *)
Theorem invalid_parameters_are_rejected w d name entry f params :
  PyDict.get_default "tool" VNone d = VStr name ->
  PyDict.get name tools = Some entry ->
  PyDict.get (function entry) module_globals = Some f ->
  PyDict.get_default "params" (VDict []) d = params ->
  (forall kwargs, params <> VDict kwargs) \/
  (exists kwargs k,
     params = VDict kwargs /\ In k (PyDict.keys kwargs) /\ ~ In k (fn_params f)) \/
  (exists kwargs p,
     params = VDict kwargs /\ In p (fn_params f) /\ ~ In p (PyDict.keys kwargs)) ->
  exists detail,
    run (handle_tool_call (VDict d)) w =
      (Ok (Response
             (VDict [("error",
                      VStr ("Invalid parameters for tool '" ++ name ++ "': " ++ detail))])
             400),
       []).
Proof.
  intros Ht He Hf Hp Hbad. unfold run.
  destruct (bad_parameters_400 w d name entry f params Ht He Hf Hp Hbad)
    as [detail ->].
  exists detail. reflexivity.
Qed.

Lemma invalid_parameters_are_rejected_witness :
  exists detail,
    run (handle_tool_call (tool_request "search" (VDict [("bogus_field", VInt 1)])))
        world_without_key =
      (Ok (Response
             (VDict [("error",
                      VStr ("Invalid parameters for tool 'search': " ++ detail))])
             400),
       []).
Proof.
  apply (invalid_parameters_are_rejected world_without_key
           [("tool", VStr "search"); ("params", VDict [("bogus_field", VInt 1)])]
           "search"
           (ToolEntry "Performs a standard, fast search using the Tavily AI search engine. Best for general queries and recent events."
                      "tavily_search")
           Fn_tavily_search
           (VDict [("bogus_field", VInt 1)]));
    try reflexivity.
  right. left. exists [("bogus_field", VInt 1)], "bogus_field".
  split; [reflexivity|]. split; [simpl; tauto|].
  simpl. intros [H|[]]. discriminate H.
Defined.

(** With a credential, each tool name reaches [requests.post] with the
    payload of its own function: "search" with depth basic and 5 results,
    "deep_search" with depth advanced and 8 results, "get_direct_answer"
    with include_answer true, "search_specific_domains" with the caller's
    domains and 5 results; the query is the caller's, the credential comes
    last. *)
Theorem dispatch_routes_each_tool w key d kwargs query :
  PyDict.get "TAVILY_API_KEY" (environ w) = Some key -> key <> "" ->
  PyDict.get_default "params" (VDict []) d = VDict kwargs ->
  PyDict.get "query" kwargs = Some query ->
  (PyDict.get_default "tool" VNone d = VStr "search" ->
   (forall k, In k (PyDict.keys kwargs) -> k = "query") ->
   posts (snd (run (handle_tool_call (VDict d)) w)) =
     [(api_url,
       [("query", query); ("search_depth", VStr "basic"); ("max_results", VInt 5);
        ("api_key", VStr key)])]) /\
  (PyDict.get_default "tool" VNone d = VStr "deep_search" ->
   (forall k, In k (PyDict.keys kwargs) -> k = "query") ->
   posts (snd (run (handle_tool_call (VDict d)) w)) =
     [(api_url,
       [("query", query); ("search_depth", VStr "advanced"); ("max_results", VInt 8);
        ("api_key", VStr key)])]) /\
  (PyDict.get_default "tool" VNone d = VStr "get_direct_answer" ->
   (forall k, In k (PyDict.keys kwargs) -> k = "query") ->
   posts (snd (run (handle_tool_call (VDict d)) w)) =
     [(api_url,
       [("query", query); ("include_answer", VBool true); ("api_key", VStr key)])]) /\
  (forall domains,
     PyDict.get_default "tool" VNone d = VStr "search_specific_domains" ->
     PyDict.get "domains" kwargs = Some domains ->
     (forall k, In k (PyDict.keys kwargs) -> k = "query" \/ k = "domains") ->
     posts (snd (run (handle_tool_call (VDict d)) w)) =
       [(api_url,
         [("query", query); ("include_domains", domains); ("max_results", VInt 5);
          ("api_key", VStr key)])]).
Proof.
  intros Hk Hne Hp Hq. unfold run.
  assert (forall f payload name entry,
            PyDict.get_default "tool" VNone d = VStr name ->
            PyDict.get name tools = Some entry ->
            PyDict.get (function entry) module_globals = Some f ->
            call_with_kwargs f (VDict kwargs) w =
              (fst (_tavily_base_search payload w),
               EvCall (fn_name f) :: snd (_tavily_base_search payload w)) ->
            posts (snd (handle_tool_call (VDict d) w)) =
              [(api_url, PyDict.set "api_key" (VStr key) payload)]) as Hgo.
  { intros f payload name entry Ht He Hf Hc.
    rewrite (handle_registered d w name entry f Ht He Hf), Hp, Hc.
    destruct (base_search_key payload w key Hk Hne) as [r [-> _]].
    cbn [fst snd]. destruct r as [v|[]]; reflexivity. }
  assert (forall f, (forall k, In k (PyDict.keys kwargs) -> In k (fn_params f)) ->
                    first_unexpected (fn_params f) kwargs = None) as Hu
    by (intros f; apply first_unexpected_all_expected).
  repeat split.
  - intros Ht Hkeys.
    eapply (Hgo Fn_tavily_search
              [("query", query); ("search_depth", VStr "basic");
               ("max_results", VInt 5)] "search" _ Ht);
      [reflexivity | reflexivity |].
    unfold call_with_kwargs. rewrite Hu, Hq.
    + apply builder_runs.
    + intros k Hin. rewrite (Hkeys k Hin). cbn. auto.
  - intros Ht Hkeys.
    eapply (Hgo Fn_tavily_deep_search
              [("query", query); ("search_depth", VStr "advanced");
               ("max_results", VInt 8)] "deep_search" _ Ht);
      [reflexivity | reflexivity |].
    unfold call_with_kwargs. rewrite Hu, Hq.
    + apply builder_runs.
    + intros k Hin. rewrite (Hkeys k Hin). cbn. auto.
  - intros Ht Hkeys.
    eapply (Hgo Fn_tavily_get_direct_answer
              [("query", query); ("include_answer", VBool true)]
              "get_direct_answer" _ Ht);
      [reflexivity | reflexivity |].
    unfold call_with_kwargs. rewrite Hu, Hq.
    + apply builder_runs.
    + intros k Hin. rewrite (Hkeys k Hin). cbn. auto.
  - intros domains Ht Hd Hkeys.
    eapply (Hgo Fn_tavily_search_specific_domains
              [("query", query); ("include_domains", domains);
               ("max_results", VInt 5)] "search_specific_domains" _ Ht);
      [reflexivity | reflexivity |].
    unfold call_with_kwargs. rewrite Hu, Hq, Hd.
    + apply builder_runs.
    + intros k Hin. destruct (Hkeys k Hin) as [-> | ->]; cbn; auto.
Qed.

Lemma dispatch_routes_each_tool_witness :
  posts (snd (run (handle_tool_call
                     (tool_request "search_specific_domains"
                        (VDict [("query", VStr "x");
                                ("domains", VList [VStr "a.com"; VStr "b.com"])])))
                  (world_with_key (Responded 200 "OK" (Json sample_results))))) =
    [(api_url,
      [("query", VStr "x"); ("include_domains", VList [VStr "a.com"; VStr "b.com"]);
       ("max_results", VInt 5); ("api_key", VStr "tvly-test")])].
Proof.
  refine (proj2 (proj2 (proj2
            (dispatch_routes_each_tool
               (world_with_key (Responded 200 "OK" (Json sample_results)))
               "tvly-test"
               [("tool", VStr "search_specific_domains");
                ("params", VDict [("query", VStr "x");
                                  ("domains", VList [VStr "a.com"; VStr "b.com"])])]
               [("query", VStr "x"); ("domains", VList [VStr "a.com"; VStr "b.com"])]
               (VStr "x") eq_refl _ eq_refl eq_refl)))
            (VList [VStr "a.com"; VStr "b.com"]) eq_refl eq_refl _).
  - discriminate.
  - simpl. intros k [<-|[<-|[]]]; auto.
Defined.

(** Status 400 is the answer to a badly shaped [params] and to nothing else:
    a 400 means that the tool is registered and that [params] is not a JSON
    object, or holds a key that names no parameter of the tool's function, or
    lacks one of its parameters; no function was entered and nothing was
    sent. *)
Theorem status_400_means_bad_parameters w data resp :
  fst (run (handle_tool_call data) w) = Ok resp ->
  status resp = 400 ->
  exists d name entry f,
    data = VDict d /\
    PyDict.get_default "tool" VNone d = VStr name /\
    PyDict.get name tools = Some entry /\
    PyDict.get (function entry) module_globals = Some f /\
    snd (run (handle_tool_call data) w) = [] /\
    let params := PyDict.get_default "params" (VDict []) d in
    (forall kwargs, params <> VDict kwargs) \/
    (exists kwargs k,
       params = VDict kwargs /\ In k (PyDict.keys kwargs) /\ ~ In k (fn_params f)) \/
    (exists kwargs p,
       params = VDict kwargs /\ In p (fn_params f) /\ ~ In p (PyDict.keys kwargs)).
Proof.
  unfold run. intros Hr Hs.
  destruct data as [| | | | | |d]; try discriminate Hr.
  destruct (PyDict.get_default "tool" VNone d) as [| | | |name| |] eqn:Ht;
    try (rewrite handle_unknown in Hr by (rewrite Ht; reflexivity);
         injection Hr as <-; discriminate Hs);
    try (unfold handle_tool_call, data_get, tools_lookup in Hr; unfold_exec;
         rewrite Ht in Hr; discriminate Hr).
  destruct (PyDict.get name tools) as [entry|] eqn:He.
  - destruct (registry_entry_function _ _ He) as [f [Hf _]].
    exists d, name, entry, f. repeat (split; [assumption || reflexivity|]).
    rewrite (handle_registered d w name entry f Ht He Hf) in Hr |- *.
    destruct (call_with_kwargs f (PyDict.get_default "params" (VDict []) d) w)
      as [[v|[msg|msg|msg|cls msg]] t] eqn:Hc; cbn [fst snd] in Hr |- *;
      try discriminate Hr.
    + exfalso.
      destruct (jsonify_cases v w) as [[E _]|[msg [E _]]]; rewrite E in Hr;
        [injection Hr as <-; discriminate Hs | discriminate Hr].
    + destruct (call_with_kwargs_cases f
                  (PyDict.get_default "params" (VDict []) d) w)
        as [[msg' E]|[payload E]]; rewrite Hc in E.
      * injection E as _ ->. split; [reflexivity|].
        exact (call_TypeError_shape _ _ _ _ _ Hc).
      * exfalso. destruct (base_search_trace payload w) as [r [t' [Hb [_ Hrr]]]].
        rewrite Hb in E. cbn in E. injection E as <- _.
        destruct (Hrr _ eq_refl) as [cls [m Hx]]. discriminate Hx.
  - rewrite handle_unknown in Hr
      by (rewrite Ht; unfold tools_lookup; now rewrite He).
    injection Hr as <-. discriminate Hs.
Qed.

Lemma status_400_means_bad_parameters_witness :
  exists d name entry f,
    tool_request "deep_search" VNone = VDict d /\
    PyDict.get_default "tool" VNone d = VStr name /\
    PyDict.get name tools = Some entry /\
    PyDict.get (function entry) module_globals = Some f /\
    snd (run (handle_tool_call (tool_request "deep_search" VNone)) world_without_key)
      = [] /\
    let params := PyDict.get_default "params" (VDict []) d in
    (forall kwargs, params <> VDict kwargs) \/
    (exists kwargs k,
       params = VDict kwargs /\ In k (PyDict.keys kwargs) /\ ~ In k (fn_params f)) \/
    (exists kwargs p,
       params = VDict kwargs /\ In p (fn_params f) /\ ~ In p (PyDict.keys kwargs)).
Proof.
  apply (status_400_means_bad_parameters world_without_key
           (tool_request "deep_search" VNone)
           (Response
              (error_result "Invalid parameters for tool 'deep_search': __main__.tavily_deep_search() argument after ** must be a mapping, not NoneType")
              400)).
  - reflexivity.
  - reflexivity.
Defined.

(** Status 404 is the answer to an unregistered tool name and to nothing
    else: a 404 means that the name read from the body is hashable and is no
    key of the registry; no function was entered and nothing was sent. *)
Theorem status_404_means_unknown_tool w data resp :
  fst (run (handle_tool_call data) w) = Ok resp ->
  status resp = 404 ->
  exists d,
    data = VDict d /\
    hashable (PyDict.get_default "tool" VNone d) = true /\
    (forall s, PyDict.get_default "tool" VNone d = VStr s ->
               PyDict.get s tools = None) /\
    snd (run (handle_tool_call data) w) = [].
Proof.
  unfold run. intros Hr Hs.
  destruct data as [| | | | | |d]; try discriminate Hr.
  exists d. split; [reflexivity|].
  destruct (PyDict.get_default "tool" VNone d) as [| | | |name| |] eqn:Ht;
    try (rewrite handle_unknown by (rewrite Ht; reflexivity);
         repeat split; intros s; discriminate);
    try (unfold handle_tool_call, data_get, tools_lookup in Hr; unfold_exec;
         rewrite Ht in Hr; discriminate Hr).
  destruct (PyDict.get name tools) as [entry|] eqn:He.
  - exfalso. destruct (registry_entry_function _ _ He) as [f [Hf _]].
    rewrite (handle_registered d w name entry f Ht He Hf) in Hr.
    destruct (call_with_kwargs f (PyDict.get_default "params" (VDict []) d) w)
      as [[v|[msg|msg|msg|cls msg]] t]; cbn [fst] in Hr; try discriminate Hr.
    + destruct (jsonify_cases v w) as [[E _]|[msg [E _]]]; rewrite E in Hr;
        [injection Hr as <-; discriminate Hs | discriminate Hr].
    + injection Hr as <-. discriminate Hs.
  - rewrite handle_unknown by (rewrite Ht; unfold tools_lookup; now rewrite He).
    repeat split. intros s [= <-]. exact He.
Qed.

Lemma status_404_means_unknown_tool_witness :
  exists d,
    tool_request "Search" (VDict [("query", VStr "hello")]) = VDict d /\
    hashable (PyDict.get_default "tool" VNone d) = true /\
    (forall s, PyDict.get_default "tool" VNone d = VStr s ->
               PyDict.get s tools = None) /\
    snd (run (handle_tool_call
                (tool_request "Search" (VDict [("query", VStr "hello")])))
             (world_with_key (Responded 200 "OK" (Json sample_results)))) = [].
Proof.
  apply (status_404_means_unknown_tool
           (world_with_key (Responded 200 "OK" (Json sample_results)))
           (tool_request "Search" (VDict [("query", VStr "hello")]))
           (Response (error_result "Tool 'Search' not found.") 404)).
  - reflexivity.
  - reflexivity.
Defined.

(** Status 200 is the answer of a call that ran and of nothing else: a 200
    means that the tool is registered, that the keys of [params] are exactly
    the parameters of its function, and that the function and then the
    client were entered.  The body is whatever the client returned, an
    error dictionary included. *)
Theorem status_200_means_the_call_ran w data resp :
  fst (run (handle_tool_call data) w) = Ok resp ->
  status resp = 200 ->
  exists d name entry f kwargs t,
    data = VDict d /\
    PyDict.get_default "tool" VNone d = VStr name /\
    PyDict.get name tools = Some entry /\
    PyDict.get (function entry) module_globals = Some f /\
    PyDict.get_default "params" (VDict []) d = VDict kwargs /\
    (forall k, In k (PyDict.keys kwargs) -> In k (fn_params f)) /\
    (forall p, In p (fn_params f) -> In p (PyDict.keys kwargs)) /\
    snd (run (handle_tool_call data) w) =
      EvCall (fn_name f) :: EvCall "_tavily_base_search" :: t.
Proof.
  unfold run. intros Hr Hs.
  destruct data as [| | | | | |d]; try discriminate Hr.
  destruct (PyDict.get_default "tool" VNone d) as [| | | |name| |] eqn:Ht;
    try (rewrite handle_unknown in Hr by (rewrite Ht; reflexivity);
         injection Hr as <-; discriminate Hs);
    try (unfold handle_tool_call, data_get, tools_lookup in Hr; unfold_exec;
         rewrite Ht in Hr; discriminate Hr).
  destruct (PyDict.get name tools) as [entry|] eqn:He.
  - destruct (registry_entry_function _ _ He) as [f [Hf _]].
    rewrite (handle_registered d w name entry f Ht He Hf) in Hr |- *.
    destruct (call_with_kwargs f (PyDict.get_default "params" (VDict []) d) w)
      as [[v|[msg|msg|msg|cls msg]] t] eqn:Hc; cbn [fst snd] in Hr |- *;
      try discriminate Hr.
    + destruct (call_returns_shape _ _ _ _ _ Hc) as [kwargs [Hp [Hsub Hall]]].
      rewrite Hp in Hc.
      destruct (call_accepted f kwargs w Hsub Hall) as [payload [E _]].
      destruct (base_search_trace payload w) as [r [t' [Hb _]]].
      rewrite Hb, Hc in E. cbn in E. injection E as _ ->.
      exists d, name, entry, f, kwargs, t'. repeat split; auto.
    + injection Hr as <-. discriminate Hs.
  - rewrite handle_unknown in Hr
      by (rewrite Ht; unfold tools_lookup; now rewrite He).
    injection Hr as <-. discriminate Hs.
Qed.

Lemma status_200_means_the_call_ran_witness :
  exists d name entry f kwargs t,
    tool_request "search" (VDict [("query", VInt 5)]) = VDict d /\
    PyDict.get_default "tool" VNone d = VStr name /\
    PyDict.get name tools = Some entry /\
    PyDict.get (function entry) module_globals = Some f /\
    PyDict.get_default "params" (VDict []) d = VDict kwargs /\
    (forall k, In k (PyDict.keys kwargs) -> In k (fn_params f)) /\
    (forall p, In p (fn_params f) -> In p (PyDict.keys kwargs)) /\
    snd (run (handle_tool_call (tool_request "search" (VDict [("query", VInt 5)])))
             world_without_key) =
      EvCall (fn_name f) :: EvCall "_tavily_base_search" :: t.
Proof.
  apply (status_200_means_the_call_ran world_without_key
           (tool_request "search" (VDict [("query", VInt 5)]))
           (Response (error_result "TAVILY_API_KEY environment variable not set.")
              200)).
  - reflexivity.
  - reflexivity.
Defined.

(** The endpoint reads the fields [tool] and [params] of the body and no
    other: two bodies that give the same tool name and the same parameters
    (an absent [params] counting as the empty object, an absent [tool] as
    null) get the same response and cause the same events. *)
Theorem only_tool_and_params_matter w d d' :
  PyDict.get_default "tool" VNone d = PyDict.get_default "tool" VNone d' ->
  PyDict.get_default "params" (VDict []) d =
    PyDict.get_default "params" (VDict []) d' ->
  run (handle_tool_call (VDict d)) w = run (handle_tool_call (VDict d')) w.
Proof.
  intros Ht Hp. unfold run, handle_tool_call, data_get. unfold_exec.
  now rewrite Ht, Hp.
Qed.

Lemma only_tool_and_params_matter_witness :
  run (handle_tool_call
         (VDict [("id", VInt 7); ("tool", VStr "search"); ("params", VDict [])]))
      world_without_key =
  run (handle_tool_call (VDict [("tool", VStr "search")])) world_without_key.
Proof.
  apply (only_tool_and_params_matter world_without_key
           [("id", VInt 7); ("tool", VStr "search"); ("params", VDict [])]
           [("tool", VStr "search")]);
    reflexivity.
Defined.

(** Every tool function requires [query]: a request for a registered tool
    whose body has no [params] field, or an empty one, is answered with
    status 400 and an "Invalid parameters" error; no function is entered and
    nothing is sent. *)
Theorem missing_params_is_rejected w d name entry :
  PyDict.get_default "tool" VNone d = VStr name ->
  PyDict.get name tools = Some entry ->
  PyDict.get_default "params" (VDict []) d = VDict [] ->
  exists detail,
    run (handle_tool_call (VDict d)) w =
      (Ok (Response
             (VDict [("error",
                      VStr ("Invalid parameters for tool '" ++ name ++ "': " ++ detail))])
             400),
       []).
Proof.
  intros Ht He Hp. unfold run.
  destruct (registry_entry_function _ _ He) as [f [Hf _]].
  apply (bad_parameters_400 w d name entry f (VDict []) Ht He Hf Hp).
  right; right. exists [], "query".
  split; [reflexivity|]. split; [apply query_is_a_parameter | cbn; tauto].
Qed.

Lemma missing_params_is_rejected_witness :
  exists detail,
    run (handle_tool_call (VDict [("tool", VStr "get_direct_answer")]))
        (world_with_key (Responded 200 "OK" (Json sample_results))) =
      (Ok (Response
             (VDict [("error",
                      VStr ("Invalid parameters for tool 'get_direct_answer': "
                            ++ detail))])
             400),
       []).
Proof.
  apply (missing_params_is_rejected
           (world_with_key (Responded 200 "OK" (Json sample_results)))
           [("tool", VStr "get_direct_answer")]
           "get_direct_answer"
           (ToolEntry "Searches for a direct, conversational answer to a user's question. Use this when the user asks a direct question like 'What is...?' or 'How do I...?'."
                      "tavily_get_direct_answer"));
    reflexivity.
Defined.

(** A body that is JSON but not an object (null, a boolean, a number, a
    string, a list) is not answered: reading [tool] raises an
    [AttributeError] that leaves the view function, before any lookup, call
    or POST. *)
Theorem non_object_body_is_an_AttributeError w data :
  (forall d, data <> VDict d) ->
  exists msg, run (handle_tool_call data) w = (Raise (AttributeError msg), []).
Proof.
  intros H. unfold run.
  destruct data; try (eexists; reflexivity).
  now contradiction (H d).
Qed.

Lemma non_object_body_is_an_AttributeError_witness :
  exists msg,
    run (handle_tool_call (VStr "search"))
        (world_with_key (Responded 200 "OK" (Json sample_results))) =
      (Raise (AttributeError msg), []).
Proof.
  apply (non_object_body_is_an_AttributeError
           (world_with_key (Responded 200 "OK" (Json sample_results)))
           (VStr "search")).
  intros d. discriminate.
Defined.

(** A tool name that is a list or an object is not answered either: the
    membership test on the registry is outside the [try], so the [TypeError]
    of hashing the name is not turned into a 400 but leaves the view
    function; no function is entered and nothing is sent. *)
Theorem unhashable_tool_name_is_a_TypeError w d :
  hashable (PyDict.get_default "tool" VNone d) = false ->
  exists msg, run (handle_tool_call (VDict d)) w = (Raise (TypeError msg), []).
Proof.
  intros H. unfold run, handle_tool_call, data_get, tools_lookup. unfold_exec.
  destruct (PyDict.get_default "tool" VNone d); try discriminate H;
    eexists; reflexivity.
Qed.

Lemma unhashable_tool_name_is_a_TypeError_witness :
  exists msg,
    run (handle_tool_call
           (VDict [("tool", VDict [("name", VStr "search")]);
                   ("params", VDict [("query", VStr "hello")])]))
        world_without_key =
      (Raise (TypeError msg), []).
Proof.
  apply (unhashable_tool_name_is_a_TypeError world_without_key
           [("tool", VDict [("name", VStr "search")]);
            ("params", VDict [("query", VStr "hello")])]).
  reflexivity.
Defined.

(** A missing credential is not an HTTP error: a well-shaped request for a
    registered tool, in a process whose [TAVILY_API_KEY] is unset or empty,
    is answered with status 200 and the body whose [error] is
    "TAVILY_API_KEY environment variable not set."; the function and the
    client are entered, nothing is sent. *)
Theorem missing_credential_is_answered_200 w d name entry f kwargs :
  PyDict.get "TAVILY_API_KEY" (environ w) = None \/
  PyDict.get "TAVILY_API_KEY" (environ w) = Some "" ->
  PyDict.get_default "tool" VNone d = VStr name ->
  PyDict.get name tools = Some entry ->
  PyDict.get (function entry) module_globals = Some f ->
  PyDict.get_default "params" (VDict []) d = VDict kwargs ->
  (forall k, In k (PyDict.keys kwargs) -> In k (fn_params f)) ->
  (forall p, In p (fn_params f) -> In p (PyDict.keys kwargs)) ->
  run (handle_tool_call (VDict d)) w =
    (Ok (Response
           (VDict [("error", VStr "TAVILY_API_KEY environment variable not set.")])
           200),
     [EvCall (fn_name f); EvCall "_tavily_base_search"]).
Proof.
  intros Hcred Ht He Hf Hp Hsub Hall. unfold run.
  rewrite (handle_registered d w name entry f Ht He Hf), Hp.
  destruct (call_accepted f kwargs w Hsub Hall) as [payload [-> _]].
  rewrite (base_search_no_credential _ _ Hcred). reflexivity.
Qed.

Lemma missing_credential_is_answered_200_witness :
  run (handle_tool_call (tool_request "search" (VDict [("query", VStr "hello")])))
      world_with_empty_key =
    (Ok (Response
           (VDict [("error", VStr "TAVILY_API_KEY environment variable not set.")])
           200),
     [EvCall "tavily_search"; EvCall "_tavily_base_search"]).
Proof.
  apply (missing_credential_is_answered_200 world_with_empty_key
           [("tool", VStr "search"); ("params", VDict [("query", VStr "hello")])]
           "search"
           (ToolEntry "Performs a standard, fast search using the Tavily AI search engine. Best for general queries and recent events."
                      "tavily_search")
           Fn_tavily_search
           [("query", VStr "hello")]);
    try reflexivity.
  - right. reflexivity.
  - simpl. tauto.
  - simpl. tauto.
Defined.

(** ** The plugin descriptor *)

(** The descriptor is the same 200 document in every world; serving it reads
    no credential and sends nothing. *)
Lemma get_plugin_info_is_static w w' :
  run get_plugin_info w = run get_plugin_info w' /\
  snd (run get_plugin_info w) = [] /\
  exists doc, fst (run get_plugin_info w) = Ok (Response (VDict doc) 200).
Proof.
  repeat split. eexists. reflexivity.
Qed.
